(** * Personalized nutritional notifications agent: a shallow embedding

    The development follows [nutrition_agent.py] as it is written.  Its
    [def resolve_triggers] (line 106) starts at column 0: it closes the body
    of [class NutritionAgent], which is left with the methods [__init__] and
    [load_data], and it is a function of the module taking the agent as its
    first argument.  The definitions after it, from
    [_should_remind_condition] (line 161) to [_update_recent_notifications]
    (line 644), keep the indentation of methods and so stand in the body of
    [resolve_triggers], after its [return].  The embedding gives the body of
    each of them as it is written, with an agent for [self]; where a body
    calls [self.<name>(...)], the name is first looked up on the agent, and
    the lookup of a name that the class does not define raises
    [AttributeError].
    Beside the agent the development covers the evaluator of the same file,
    the statistics endpoint of [api_service.py] and the format in which
    [mock_data_generator.py] writes meal times.

    Conventions of the embedding:
    - a Python [str] that the code only compares, an identifier or a key,
      is a [string], one [ascii] per character; a [str] that is text, whose
      length is taken, is the list of its code points ([unicode]);
    - a Python [float] (and the [int]s mixed with it) is a rational [Q] with
      exact arithmetic; the one irrational operation, the square root inside
      [np.linalg.norm], is a parameter of the scoring section;
    - [str.lower] on a text is a parameter of the composer section;
    - a timezone-aware [datetime] is an absolute instant in microseconds since
      the epoch together with its UTC offset, also in microseconds;
    - a [dict] whose iteration order is observed is an association list in
      insertion order; a [dict] that is only looked up and assigned is a
      [gmap]; a [set] is a [gset];
    - a pandas [DataFrame] is the list of its rows;
    - a computation that may raise returns a [result]; a body that also
      assigns to the attributes of the agent is a state-passing function. *)

From Stdlib Require Import ZArith QArith Qround String Ascii List Lia.
From Stdlib Require Import Permutation Sorted DecimalString.
From stdpp Require Import gmap strings list.

Import ListNotations.
Close Scope Q_scope.
Local Open Scope string_scope.
Local Open Scope list_scope.
Local Open Scope Z_scope.

(** ** Exceptions and results *)

Inductive exn : Type :=
| TypeError
| KeyError (key : string)
| ValueError
| UnknownTimeZoneError
| AttributeError.

Inductive result (A : Type) : Type :=
| Ok (a : A)
| Raise (e : exn).

Arguments Ok {A} a.
Arguments Raise {A} e.

Definition rbind {A B} (r : result A) (k : A -> result B) : result B :=
  match r with
  | Ok a => k a
  | Raise e => Raise e
  end.

(** [for x in xs: acc = body acc x], stopping at the first exception. *)
Fixpoint rfold {A B} (body : B -> A -> result B) (xs : list A) (acc : B)
  : result B :=
  match xs with
  | [] => Ok acc
  | x :: xs' => rbind (body acc x) (rfold body xs')
  end.

(** ** Time *)

Definition usec_per_second : Z := 1000000.
Definition usec_per_minute : Z := 60 * usec_per_second.
Definition usec_per_hour : Z := 60 * usec_per_minute.
Definition usec_per_day : Z := 24 * usec_per_hour.

(** A timezone-aware [datetime]: the instant it denotes and the UTC offset
    of its [tzinfo], a fixed offset as in [datetime.now(pytz.UTC)] and in the
    result of [datetime.fromisoformat], which is what the callers pass.
    Aware datetimes are compared and subtracted by instant. *)
Record datetime : Type := mkDatetime {
  instant : Z;
  utcoffset : Z
}.

(** Wall-clock reading, counted from the epoch in the datetime's own zone. *)
Definition wall (d : datetime) : Z := instant d + utcoffset d.

(** Microseconds elapsed since the wall-clock midnight of [d]'s date. *)
Definition time_of_day (d : datetime) : Z := wall d mod usec_per_day.

(** [d.hour] *)
Definition hour (d : datetime) : Z := time_of_day d / usec_per_hour.

(** [d.replace(hour=0, minute=0, second=0, microsecond=0)]: same date and
    same [tzinfo], wall clock set to midnight. *)
Definition replace_midnight (d : datetime) : datetime :=
  {| instant := instant d - time_of_day d; utcoffset := utcoffset d |}.

(** [d.replace(hour=h, minute=m)]: seconds and microseconds are kept. *)
Definition replace_hour_minute (d : datetime) (h m : Z) : datetime :=
  {| instant := instant d - time_of_day d
                + h * usec_per_hour + m * usec_per_minute
                + time_of_day d mod usec_per_minute;
     utcoffset := utcoffset d |}.

(** [d - timedelta(...)] with the delta given in microseconds. *)
Definition minus_delta (d : datetime) (delta : Z) : datetime :=
  {| instant := instant d - delta; utcoffset := utcoffset d |}.

(** [a >= b] on aware datetimes. *)
Definition dt_geb (a b : datetime) : bool := instant b <=? instant a.

(** [(a - b).total_seconds() < s] for an integer number of seconds [s]: the
    difference is a whole number of microseconds, so the comparison of the
    quotient with [s] is the comparison of the difference with [s] seconds. *)
Definition seconds_between_ltb (a b : datetime) (s : Z) : bool :=
  instant a - instant b <? s * usec_per_second.

(** [abs((a - b).total_seconds()) <= s] *)
Definition abs_seconds_between_leb (a b : datetime) (s : Z) : bool :=
  Z.abs (instant a - instant b) <=? s * usec_per_second.

(** ** Strings *)

(** [c.lower()] on one character of the Latin-1 range. *)
Definition lower_ascii (c : ascii) : ascii :=
  let n := nat_of_ascii c in
  if ((65 <=? n)%nat && (n <=? 90)%nat)
     || ((192 <=? n)%nat && (n <=? 222)%nat && negb (n =? 215)%nat)
  then ascii_of_nat (n + 32)
  else c.

(** [s.lower()] *)
Fixpoint lower (s : string) : string :=
  match s with
  | EmptyString => EmptyString
  | String c s' => String (lower_ascii c) (lower s')
  end.

(** [s.startswith(p)] *)
Definition startswith (s p : string) : bool := String.prefix p s.

(** [s.replace(old, new)] for a non-empty [old]: occurrences are found left
    to right and do not overlap.  [skip] counts the characters of a matched
    occurrence that are still to be dropped. *)
Fixpoint replace_from (old new s : string) (skip : nat) : string :=
  match s with
  | EmptyString => EmptyString
  | String c s' =>
      match skip with
      | S k => replace_from old new s' k
      | O =>
          if String.prefix old s
          then String.append new (replace_from old new s' (String.length old - 1))
          else String c (replace_from old new s' O)
      end
  end.

Definition str_replace (s old new : string) : string :=
  replace_from old new s O.

(** ** Text

    The text of a template, the name of a food, a fact, a message: the list
    of the code points of the [str], so that [len] counts code points and a
    slice cuts between them. *)
Definition unicode : Type := list N.

(** The code points of a string of the Latin-1 range: a literal of the
    source, or an identifier that goes into a text. *)
Definition codepoints (s : string) : unicode :=
  map N_of_ascii (list_ascii_of_string s).

(** [s.startswith(p)] on text. *)
Fixpoint unicode_prefix (p s : unicode) : bool :=
  match p, s with
  | [], _ => true
  | c :: p', d :: s' => N.eqb c d && unicode_prefix p' s'
  | _ :: _, [] => false
  end.

(** [s.replace(old, new)] on text, for a non-empty [old]: as
    [replace_from] does it on strings. *)
Fixpoint unicode_replace_from (old new s : unicode) (skip : nat) : unicode :=
  match s with
  | [] => []
  | c :: s' =>
      match skip with
      | S k => unicode_replace_from old new s' k
      | O =>
          if unicode_prefix old s
          then new ++ unicode_replace_from old new s' (length old - 1)
          else c :: unicode_replace_from old new s' O
      end
  end.

Definition unicode_replace (s old new : unicode) : unicode :=
  unicode_replace_from old new s O.

(** ** Data model *)

Record User : Type := mkUser {
  user_id : string;
  diet_pref : string;
  allergies : list string;
  age : Z;
  gender : string;
  city : string;
  tz : string;
  usual_meal_times : list (string * string);
  conditions : list string
}.

Record Food : Type := mkFood {
  food_id : string;
  name : unicode;
  is_veg : bool;
  ingredients : list string;
  tags : list string;
  nutrients : list (string * Q)
}.

(** A row of [condition_nutrients.csv]. *)
Record LinkRow : Type := mkLinkRow {
  lr_condition : string;
  lr_nutrient : string;
  lr_weight : Q;
  lr_references : string
}.

(** A row of [user_activity.csv].  [None] in [act_ts] is pandas' [NaT], in
    [act_food_id] a missing value. *)
Record ActivityRow : Type := mkActivityRow {
  act_user_id : string;
  act_ts : option Z;
  act_event : string;
  act_food_id : option string;
  act_duration_min : option Z
}.

Record Template : Type := mkTemplate {
  template_id : string;
  text : unicode;
  style : string;
  lang : string
}.

(** An entry of [recent_notifications[user_id]].  The timestamp is stored as
    [now.isoformat()] and read back with [datetime.fromisoformat]; the round
    trip restores the instant and the offset, so the entry holds the
    datetime itself. *)
Record RecentEntry : Type := mkRecentEntry {
  re_food_id : string;
  re_timestamp : datetime;
  re_trigger : string
}.

Record Weights : Type := mkWeights {
  w1 : Q;
  w2 : Q;
  w3 : Q;
  w4 : Q;
  w5 : Q
}.

(** [self.weights], assigned once in [__init__]. *)
Definition weights : Weights :=
  {| w1 := 4 # 10; w2 := 3 # 10; w3 := 2 # 10; w4 := 1 # 10; w5 := 8 # 10 |}.

(** The attributes of a [NutritionAgent] after [load_data].
    [activity_ts_aware] is the dtype of the [ts] column of the activity log:
    [false] for the naive [datetime64] column that [load_data] builds,
    [true] once the column has been localized to UTC.  Naive readings are
    UTC readings, so localizing leaves [act_ts] unchanged. *)
Record Agent : Type := mkAgent {
  users : gmap string User;
  foods : list (string * Food);
  condition_nutrients : list LinkRow;
  activity_logs : list ActivityRow;
  activity_ts_aware : bool;
  message_templates : gmap string Template;
  facts : gmap string unicode;
  recent_notifications : gmap string (list RecentEntry)
}.

(** ** Methods of the agent *)

(** The methods that [class NutritionAgent] defines. *)
Definition NutritionAgent_methods : list string := ["__init__"; "load_data"].

Definition has_method (name : string) : bool :=
  existsb (String.eqb name) NutritionAgent_methods.

(** [self.<name>(...)] on an agent: the attribute is looked up, then the
    call is made; [call] is what the body written under that name
    computes. *)
Definition send {A} (name : string) (call : result A) : result A :=
  if has_method name then call else Raise AttributeError.

(** The same for a body that changes the agent: a failed lookup leaves the
    agent as it is. *)
Definition send_st {A} (name : string) (call : result A * Agent) (ag : Agent)
  : result A * Agent :=
  if has_method name then call else (Raise AttributeError, ag).

(** ** Dictionaries in insertion order *)

(** [d.get(k)] *)
Fixpoint dict_get {V} (d : list (string * V)) (k : string) : option V :=
  match d with
  | [] => None
  | (k', v) :: d' => if String.eqb k' k then Some v else dict_get d' k
  end.

(** [d[k] = v]: an existing key keeps its position, a new key goes last. *)
Fixpoint dict_set {V} (d : list (string * V)) (k : string) (v : V)
  : list (string * V) :=
  match d with
  | [] => [(k, v)]
  | (k', v') :: d' =>
      if String.eqb k' k then (k', v) :: d' else (k', v') :: dict_set d' k v
  end.

Definition dict_keys {V} (d : list (string * V)) : list string := map fst d.
Definition dict_values {V} (d : list (string * V)) : list V := map snd d.

(** ** Candidate filter *)

(** [_check_diet_compatibility] *)
Definition _check_diet_compatibility (user : User) (food : Food) : bool :=
  if String.eqb (diet_pref user) "veg" then is_veg food
  else if String.eqb (diet_pref user) "nonveg" then true
  else if String.eqb (diet_pref user) "egg"
       then is_veg food || bool_decide ("eggs" ∈ ingredients food)
  else true.

(** [_has_allergy_risk] *)
Definition _has_allergy_risk (user : User) (food : Food) : bool :=
  let food_allergens : gset string :=
    list_to_set (tags food ++ ingredients food) in
  let user_allergens : gset string := list_to_set (allergies user) in
  bool_decide (0 < size (food_allergens ∩ user_allergens))%nat.

(** The rows selected by [df[df['condition'] == condition]]. *)
Definition rows_of_condition (ag : Agent) (condition : string)
  : list LinkRow :=
  filter (fun r => lr_condition r = condition) (condition_nutrients ag).

(** [_is_relevant_to_conditions] *)
Definition _is_relevant_to_conditions (ag : Agent) (user : User) (food : Food)
  : bool :=
  let food_nutrients : gset string := list_to_set (dict_keys (nutrients food)) in
  existsb
    (fun condition =>
       let required_nutrients : gset string :=
         list_to_set (map lr_nutrient (rows_of_condition ag condition)) in
       bool_decide (0 < size (food_nutrients ∩ required_nutrients))%nat)
    (conditions user).

(** [_is_available] *)
Definition _is_available (user : User) (food : Food) (now : datetime) : bool :=
  true.

(** [generate_candidates]: the loop over [self.foods.items()]; a test that
    fails goes on with the next food. *)
Definition generate_candidates (ag : Agent) (user : User) (now : datetime)
    (trigger : string) : result (list Food) :=
  rfold
    (fun candidates '(_, food) =>
       rbind (send "_check_diet_compatibility"
                (Ok (_check_diet_compatibility user food)))
         (fun compatible =>
            if negb compatible then Ok candidates
            else
       rbind (send "_has_allergy_risk" (Ok (_has_allergy_risk user food)))
         (fun risk =>
            if risk then Ok candidates
            else
       rbind (send "_is_relevant_to_conditions"
                (Ok (_is_relevant_to_conditions ag user food)))
         (fun relevant =>
            if negb relevant then Ok candidates
            else
       rbind (send "_is_available" (Ok (_is_available user food now)))
         (fun available =>
            if negb available then Ok candidates
            else Ok (candidates ++ [food]))))))
    (foods ag) [].

(** ** Rational arithmetic as the code uses it *)

Definition Qltb (a b : Q) : bool := negb (Qle_bool b a).

(** Python's [max(a, b)] and [min(a, b)]: the first argument wins a tie. *)
Definition py_max (a b : Q) : Q := if Qltb a b then b else a.
Definition py_min (a b : Q) : Q := if Qltb b a then b else a.

Definition Qsum (l : list Q) : Q := fold_left Qplus l (0 # 1)%Q.

(** [Series.mean()] of a column without missing values. *)
Definition Qmean (l : list Q) : Q :=
  (Qsum l / inject_Z (Z.of_nat (length l)))%Q.

(** [round(x, 3)], halves going to the even neighbour. *)
Definition round3 (x : Q) : Q :=
  let y := (x * inject_Z 1000)%Q in
  let n := Qfloor y in
  let r := (y - inject_Z n)%Q in
  let up := Qltb (1 # 2)%Q r || (Qeq_bool r (1 # 2)%Q && Z.odd n) in
  ((inject_Z (if up then n + 1 else n)) / inject_Z 1000)%Q.

(** ** Parsing meal times *)

Definition digit_of (c : ascii) : option Z :=
  let n := nat_of_ascii c in
  if ((48 <=? n)%nat && (n <=? 57)%nat)
  then Some (Z.of_nat (n - 48))
  else None.

(** One numeric field of [strptime]: two digits when they form a value not
    above [bound], else one digit.  Returns the value and the rest. *)
Definition parse_field (bound : Z) (s : string) : option (Z * string) :=
  match s with
  | EmptyString => None
  | String a s1 =>
      match digit_of a with
      | None => None
      | Some x =>
          match s1 with
          | String b s2 =>
              match digit_of b with
              | Some y =>
                  if 10 * x + y <=? bound then Some (10 * x + y, s2)
                  else Some (x, s1)
              | None => Some (x, s1)
              end
          | EmptyString => Some (x, s1)
          end
      end
  end.

(** [datetime.strptime(s, '%H:%M').time()] as (hour, minute); a string that
    does not match, or has characters left over, raises [ValueError]. *)
Definition strptime_HM (s : string) : result (Z * Z) :=
  match parse_field 23 s with
  | Some (h, String ":" rest) =>
      match parse_field 59 rest with
      | Some (m, EmptyString) => Ok (h, m)
      | _ => Raise ValueError
      end
  | _ => Raise ValueError
  end.

(** ** Queries on the activity log *)

(** A comparison of the [ts] column with an aware datetime is a [TypeError]
    while the column is still naive. *)
Definition check_ts_comparable (ag : Agent) : result unit :=
  if activity_ts_aware ag then Ok tt else Raise TypeError.

(** One cell of [activity_logs['ts'] >= bound]; [NaT] compares false. *)
Definition ts_geb (ts : option Z) (bound : datetime) : bool :=
  match ts with
  | Some t => instant bound <=? t
  | None => false
  end.

(** The rows of [activity_logs] of [uid] with event [event] and
    [ts >= bound]. *)
Definition activity_since (ag : Agent) (uid event : string) (bound : datetime)
  : result (list ActivityRow) :=
  rbind (check_ts_comparable ag) (fun _ =>
    Ok (List.filter
          (fun a => String.eqb (act_user_id a) uid
                    && String.eqb (act_event a) event
                    && ts_geb (act_ts a) bound)
          (activity_logs ag))).

(** The foods named by log rows: rows without a food id, or with one that is
    not in the catalog, are skipped. *)
Definition logged_foods (ag : Agent) (rows : list ActivityRow) : list Food :=
  omap (fun a => match act_food_id a with
                 | Some fid => dict_get (foods ag) fid
                 | None => None
                 end) rows.

(** ** Trigger resolver *)

(** A zone of the timezone database: its UTC offset at an instant, and the
    offset it gives to a wall-clock reading (localization). *)
Record TzInfo : Type := mkTzInfo {
  utcoffset_at : Z -> Z;
  utcoffset_of_wall : Z -> Z
}.

(** [d.astimezone(zone)] *)
Definition astimezone (zone : TzInfo) (d : datetime) : datetime :=
  {| instant := instant d; utcoffset := utcoffset_at zone (instant d) |}.

(** [Timestamp.replace(hour=h, minute=m)] on a timestamp of [zone]: the wall
    clock is edited and localized again. *)
Definition replace_hour_minute_in (zone : TzInfo) (d : datetime) (h m : Z)
  : datetime :=
  let w := wall (replace_hour_minute d h m) in
  {| instant := w - utcoffset_of_wall zone w;
     utcoffset := utcoffset_of_wall zone w |}.

(** [_should_remind_condition] *)
Definition _should_remind_condition (ag : Agent) (uid condition : string)
    (now : datetime) : result bool :=
  let relevant_nutrients : gset string :=
    list_to_set (map lr_nutrient (rows_of_condition ag condition)) in
  let week_ago := minus_delta now (7 * usec_per_day) in
  rbind (activity_since ag uid "consumed" week_ago) (fun recent_foods =>
    let consumed_nutrients : gset string :=
      list_to_set
        (concat (map (fun f => dict_keys (nutrients f))
                     (logged_foods ag recent_foods))) in
    Ok (bool_decide (size (relevant_nutrients ∩ consumed_nutrients) = 0%nat))).

(** The slug of a condition in a trigger name. *)
Definition condition_trigger (condition : string) : string :=
  String.append "condition_" (str_replace (lower condition) " " "_").

Section Triggers.

(** [pytz.timezone]: the zone of a name, [None] for an unknown name. *)
Variable tzdb : string -> option TzInfo.

(** [resolve_triggers].  [rnd] is the value [random.random()] returns if
    the call draws one.  The function first converts [now] to UTC and
    localizes the [ts] column of the activity log to UTC, storing the
    column back; [tz_localize] raises [TypeError] on a column that is
    already timezone-aware.  In the loop over the conditions the test is
    [self._should_remind_condition(...)]. *)
Definition resolve_triggers (ag : Agent) (user : User) (now : datetime)
    (rnd : Q) : result (list string) * Agent :=
  let now := {| instant := instant now; utcoffset := 0 |} in
  if activity_ts_aware ag then (Raise TypeError, ag) else
  let ag :=
    {| users := users ag; foods := foods ag;
       condition_nutrients := condition_nutrients ag;
       activity_logs := activity_logs ag;
       activity_ts_aware := true;
       message_templates := message_templates ag;
       facts := facts ag;
       recent_notifications := recent_notifications ag |} in
  match tzdb (tz user) with
  | None => (Raise UnknownTimeZoneError, ag)
  | Some user_tz =>
      let user_now := astimezone user_tz now in
      let current_hour := hour user_now in
      if (22 <=? current_hour) || (current_hour <=? 7) then (Ok [], ag)
      else
        (rbind
           (rfold
              (fun triggers '(meal, meal_time) =>
                 rbind (strptime_HM meal_time) (fun '(h, m) =>
                   let meal_with_date :=
                     replace_hour_minute_in user_tz user_now h m in
                   let pre_meal_time :=
                     minus_delta meal_with_date (30 * usec_per_minute) in
                   if abs_seconds_between_leb user_now pre_meal_time 300
                   then Ok (triggers ++ [String.append "pre_" meal])
                   else Ok triggers))
              (usual_meal_times user) [])
           (fun triggers =>
         rbind
           (activity_since ag (user_id user) "worked_out"
              (minus_delta now (2 * usec_per_hour)))
           (fun recent_activities =>
              let triggers :=
                if (0 <? Z.of_nat (length recent_activities))
                then triggers ++ ["post_activity"] else triggers in
         rbind
           (rfold
              (fun triggers condition =>
                 rbind (send "_should_remind_condition"
                          (_should_remind_condition ag (user_id user)
                             condition now))
                   (fun remind =>
                      if remind
                      then Ok (triggers ++ [condition_trigger condition])
                      else Ok triggers))
              (conditions user) triggers)
           (fun triggers =>
              if (17 <=? current_hour) && (current_hour <=? 20)
                 && Qltb rnd (1 # 10)%Q
              then Ok (triggers ++ ["social_viral"])
              else Ok triggers))), ag)
  end.

End Triggers.

(** ** Ranker *)

(** The [scores] dictionary of [_calculate_scores]. *)
Record Scores : Type := mkScores {
  CondMatch : Q;
  NutrientGapFit : Q;
  AvailabilityBoost : Q;
  RecencyNovelty : Q;
  AllergyRisk : Q
}.

(** The rows selected by [df[df['condition'].isin(user.conditions)]]. *)
Definition rows_of_user (ag : Agent) (user : User) : list LinkRow :=
  filter (fun r => lr_condition r ∈ conditions user) (condition_nutrients ag).

(** [list(set(condition_nutrients['nutrient'].values))] *)
Definition all_nutrients (ag : Agent) (user : User) : list string :=
  elements (list_to_set (map lr_nutrient (rows_of_user ag user)) : gset string).

(** The weights of [rows[rows['nutrient'] == nutrient]['weight']]. *)
Definition weights_of_nutrient (rows : list LinkRow) (nutrient : string)
  : list Q :=
  map lr_weight (filter (fun r => lr_nutrient r = nutrient) rows).

(** The condition weight vector of [_calculate_condition_match]: for each
    nutrient the mean of the selected weights, [0.0] where the mean is
    [NaN]. *)
Definition condition_vector (ag : Agent) (user : User) : list Q :=
  map (fun nutrient =>
         match weights_of_nutrient (rows_of_user ag user) nutrient with
         | [] => (0 # 1)%Q
         | ws => Qmean ws
         end)
      (all_nutrients ag user).

(** The food vector of [_calculate_condition_match]. *)
Definition food_vector (ag : Agent) (user : User) (food : Food) : list Q :=
  map (fun nutrient => default (0 # 1)%Q (dict_get (nutrients food) nutrient))
      (all_nutrients ag user).

(** [target_nutrients] of [_calculate_nutrient_gap_fit]: the two nested
    loops, over the user's conditions and over the rows of each. *)
Definition target_nutrients (ag : Agent) (user : User) : list (string * Q) :=
  fold_left
    (fun target condition =>
       fold_left
         (fun target row =>
            dict_set target (lr_nutrient row)
              (py_max (default (0 # 1)%Q (dict_get target (lr_nutrient row)))
                      (lr_weight row)))
         (rows_of_condition ag condition) target)
    (conditions user) [].

(** [consumed_nutrients] of [_calculate_nutrient_gap_fit]. *)
Definition consumed_nutrients (consumed_foods : list Food)
  : list (string * Q) :=
  fold_left
    (fun consumed consumed_food =>
       fold_left
         (fun consumed '(nutrient, amount) =>
            dict_set consumed nutrient
              (default (0 # 1)%Q (dict_get consumed nutrient) + amount)%Q)
         (nutrients consumed_food) consumed)
    consumed_foods [].

(** [_calculate_recency_novelty] *)
Definition _calculate_recency_novelty (ag : Agent) (food : Food) (user : User)
    (now : datetime) : Q :=
  let user_recent := default [] (recent_notifications ag !! user_id user) in
  let week_ago := minus_delta now (7 * usec_per_day) in
  let recent_food_ids :=
    map re_food_id
      (List.filter (fun notif => dt_geb (re_timestamp notif) week_ago)
                   user_recent) in
  if bool_decide (food_id food ∈ recent_food_ids)
  then (1 # 10)%Q else (9 # 10)%Q.

(** [list.sort(key=key, reverse=True)]: the sort is stable, elements with
    equal keys keep their order.  [x] enters in front of the first element
    whose key is not greater than its own. *)
Fixpoint insert_desc {A} (key : A -> Q) (x : A) (l : list A) : list A :=
  match l with
  | [] => [x]
  | y :: l' =>
      if Qle_bool (key y) (key x) then x :: y :: l'
      else y :: insert_desc key x l'
  end.

Fixpoint sort_desc {A} (key : A -> Q) (l : list A) : list A :=
  match l with
  | [] => []
  | x :: l' => insert_desc key x (sort_desc key l')
  end.

Section Scoring.

(** The square root of [np.linalg.norm]. *)
Variable sqrtQ : Q -> Q.

(** [_cosine_similarity] *)
Definition _cosine_similarity (vec1 vec2 : list Q) : Q :=
  let dot_product := Qsum (zip_with Qmult vec1 vec2) in
  let norm1 := sqrtQ (Qsum (map (fun x => x * x)%Q vec1)) in
  let norm2 := sqrtQ (Qsum (map (fun x => x * x)%Q vec2)) in
  if Qeq_bool norm1 (0 # 1)%Q || Qeq_bool norm2 (0 # 1)%Q then (0 # 1)%Q
  else (dot_product / (norm1 * norm2))%Q.

(** [_calculate_condition_match] *)
Definition _calculate_condition_match (ag : Agent) (food : Food)
    (user : User) : result Q :=
  if (length (rows_of_user ag user) =? 0)%nat then Ok (0 # 1)%Q
  else send "_cosine_similarity"
         (Ok (_cosine_similarity (food_vector ag user food)
                                 (condition_vector ag user))).

(** [_calculate_nutrient_gap_fit] *)
Definition _calculate_nutrient_gap_fit (ag : Agent) (food : Food)
    (user : User) (now : datetime) : result Q :=
  let yesterday := minus_delta now (1 * usec_per_day) in
  rbind (activity_since ag (user_id user) "consumed" yesterday)
    (fun recent_foods =>
       let consumed := consumed_nutrients (logged_foods ag recent_foods) in
       let '(gap_coverage, total_gaps) :=
         fold_left
           (fun '(gap_coverage, total_gaps) '(nutrient, target_weight) =>
              let consumed_amount :=
                default (0 # 1)%Q (dict_get consumed nutrient) in
              let food_provides :=
                default (0 # 1)%Q (dict_get (nutrients food) nutrient) in
              if Qltb consumed_amount target_weight then
                let gap_size := (target_weight - consumed_amount)%Q in
                let coverage :=
                  if Qltb (0 # 1)%Q gap_size
                  then py_min (food_provides / gap_size)%Q (1 # 1)%Q
                  else (0 # 1)%Q in
                ((gap_coverage + coverage)%Q, (total_gaps + 1)%Z)
              else (gap_coverage, total_gaps))
           (target_nutrients ag user) ((0 # 1)%Q, 0%Z) in
       Ok (if 0 <? total_gaps
           then (gap_coverage / inject_Z total_gaps)%Q
           else (0 # 1)%Q)).

(** [_calculate_scores] *)
Definition _calculate_scores (ag : Agent) (food : Food) (user : User)
    (now : datetime) (trigger : string) : result Scores :=
  rbind (send "_calculate_condition_match"
           (_calculate_condition_match ag food user))
    (fun cond_match =>
  rbind (send "_calculate_nutrient_gap_fit"
           (_calculate_nutrient_gap_fit ag food user now))
    (fun gap_fit =>
  rbind (send "_calculate_recency_novelty"
           (Ok (_calculate_recency_novelty ag food user now)))
    (fun novelty =>
       Ok {| CondMatch := cond_match;
             NutrientGapFit := gap_fit;
             AvailabilityBoost := (1 # 1)%Q;
             RecencyNovelty := novelty;
             AllergyRisk := (0 # 1)%Q |}))).

(** The weighted sum of [rank_candidates]. *)
Definition total_score (scores : Scores) : Q :=
  (w1 weights * CondMatch scores
   + w2 weights * NutrientGapFit scores
   + w3 weights * AvailabilityBoost scores
   + w4 weights * RecencyNovelty scores
   - w5 weights * AllergyRisk scores)%Q.

(** [rank_candidates] *)
Definition rank_candidates (ag : Agent) (candidates : list Food)
    (user : User) (now : datetime) (trigger : string)
  : result (list (Food * Q * Scores)) :=
  rbind
    (rfold
       (fun scored_candidates food =>
          rbind (send "_calculate_scores"
                   (_calculate_scores ag food user now trigger))
            (fun scores =>
               Ok (scored_candidates ++ [(food, total_score scores, scores)])))
       candidates [])
    (fun scored_candidates =>
       Ok (sort_desc (fun x => snd (fst x)) scored_candidates)).

End Scoring.

(** ** Message composer *)

(** [_get_primary_condition_and_nutrients] *)
Definition _get_primary_condition_and_nutrients (ag : Agent) (food : Food)
    (user : User) : string * list string :=
  let '(best_condition, _, key_nutrients) :=
    fold_left
      (fun '(best_condition, best_score, key_nutrients) condition =>
         let '(score, condition_key_nutrients) :=
           fold_left
             (fun '(score, condition_key_nutrients) row =>
                match dict_get (nutrients food) (lr_nutrient row) with
                | Some amount =>
                    if Qltb (0 # 1)%Q amount
                    then ((score + lr_weight row * amount)%Q,
                          condition_key_nutrients ++ [lr_nutrient row])
                    else (score, condition_key_nutrients)
                | None => (score, condition_key_nutrients)
                end)
             (rows_of_condition ag condition) ((0 # 1)%Q, []) in
         if Qltb best_score score
         then (condition, score, condition_key_nutrients)
         else (best_condition, best_score, key_nutrients))
      (conditions user) ("", (0 # 1)%Q, []) in
  (best_condition, key_nutrients).

(** [_select_template] *)
Definition _select_template (trigger : string) : string :=
  let template_map :=
    [("pre_breakfast", "pre_meal_basic"); ("pre_lunch", "pre_meal_basic");
     ("pre_dinner", "pre_meal_basic"); ("post_activity", "post_workout");
     ("social_viral", "science_fact")] in
  if startswith trigger "condition_" then "condition_reminder"
  else default "pre_meal_basic" (dict_get template_map trigger).

(** [_get_why_now_fact] *)
Definition _get_why_now_fact (ag : Agent) (trigger : string) : unicode :=
  let fact_map :=
    [("pre_breakfast", "morning_boost"); ("pre_lunch", "pre_meal");
     ("pre_dinner", "pre_meal"); ("post_activity", "post_activity");
     ("social_viral", "omega3_benefits")] in
  if startswith trigger "condition_" then codepoints "evening_repair"
  else
    let fact_key := default "pre_meal" (dict_get fact_map trigger) in
    default (codepoints "Science-backed nutrition timing matters")
            (facts ag !! fact_key).

Record Cta : Type := mkCta {
  label : string;
  deep_link : string
}.

(** [_generate_cta] *)
Definition _generate_cta (food : Food) (condition : string) : Cta :=
  {| label := "Learn more";
     deep_link :=
       String.append "app://explore?food="
         (String.append (food_id food)
            (String.append "&condition=" (str_replace condition " " "%20"))) |}.

Record Reasons : Type := mkReasons {
  rs_condition : string;
  rs_key_nutrients : list string;
  rs_why_now : unicode;
  rs_scores : Scores
}.

Record NotificationCandidate : Type := mkNotificationCandidate {
  nc_food : Food;
  nc_score : Q;
  nc_reasons : Reasons;
  nc_message : unicode;
  nc_cta : Cta
}.

(** The [nutrient_names] table of [_generate_benefit_text]. *)
Definition nutrient_names : list (string * string) :=
  [("vitamin_e", "Vitamin E"); ("zinc", "Zinc"); ("vitamin_c", "Vitamin C");
   ("protein", "protein"); ("iron", "iron"); ("fiber", "fiber");
   ("omega3", "Omega-3"); ("probiotics", "probiotics");
   ("magnesium", "magnesium")].

Section Composer.

(** [str.lower] on text. *)
Variable str_lower : unicode -> unicode.

(** [_generate_benefit_text] *)
Definition _generate_benefit_text (nutrients : list string)
    (condition : string) : unicode :=
  match nutrients with
  | [] => codepoints "supports " ++ str_lower (codepoints condition)
  | _ =>
      match map (fun n => codepoints (default n (dict_get nutrient_names n)))
                (firstn 2 nutrients) with
      | [a] => a ++ codepoints " boost"
      | [a; b] => a ++ codepoints " + " ++ b ++ codepoints " boost"
      | _ => codepoints "nutrient boost"
      end
  end.

(** The text of [_fill_template] after the loop over [replacements], before
    the length check. *)
Definition substitute (template : Template) (food : Food)
    (benefit condition why_now : unicode) (cta : Cta) : unicode :=
  let replacements :=
    [(codepoints "{food}", name food);
     (codepoints "{benefit}", benefit);
     (codepoints "{condition}", str_lower condition);
     (codepoints "{why_now}", why_now);
     (codepoints "{cta}", codepoints "Try " ++ str_lower (name food))] in
  fold_left (fun text '(placeholder, value) =>
               unicode_replace text placeholder value)
            replacements (text template).

(** [_fill_template] *)
Definition _fill_template (template : Template) (food : Food)
    (benefit condition why_now : unicode) (cta : Cta) : unicode :=
  let text := substitute template food benefit condition why_now cta in
  if (160 <? length text)%nat
  then take 157 text ++ codepoints "..."
  else text.

(** The body of the loop of [compose_messages]: the notification for one
    ranked entry, each helper being reached through [self];
    [message_templates[template_id]] raises [KeyError] for a template that
    was not loaded. *)
Definition compose_message (ag : Agent) (user : User) (trigger : string)
    (entry : Food * Q * Scores) : result NotificationCandidate :=
  let '(food, score, scores) := entry in
  rbind (send "_get_primary_condition_and_nutrients"
           (Ok (_get_primary_condition_and_nutrients ag food user)))
    (fun '(primary_condition, key_nutrients) =>
  rbind (send "_generate_benefit_text"
           (Ok (_generate_benefit_text key_nutrients primary_condition)))
    (fun benefit =>
  rbind (send "_select_template" (Ok (_select_template trigger)))
    (fun template_id =>
  match message_templates ag !! template_id with
  | None => Raise (KeyError template_id)
  | Some template =>
  rbind (send "_get_why_now_fact" (Ok (_get_why_now_fact ag trigger)))
    (fun why_now =>
  rbind (send "_generate_cta" (Ok (_generate_cta food primary_condition)))
    (fun cta =>
  rbind (send "_fill_template"
           (Ok (_fill_template template food benefit
                  (codepoints primary_condition) why_now cta)))
    (fun message =>
       Ok {| nc_food := food;
             nc_score := score;
             nc_reasons :=
               {| rs_condition := primary_condition;
                  rs_key_nutrients := key_nutrients;
                  rs_why_now := why_now;
                  rs_scores := scores |};
             nc_message := message;
             nc_cta := cta |})))
  end))).

(** [compose_messages] *)
Definition compose_messages (ag : Agent)
    (ranked_candidates : list (Food * Q * Scores)) (user : User)
    (trigger : string) (top_n : nat) : result (list NotificationCandidate) :=
  rfold
    (fun notifications entry =>
       rbind (compose_message ag user trigger entry) (fun notification =>
         Ok (notifications ++ [notification])))
    (firstn top_n ranked_candidates) [].

End Composer.

(** ** Notification orchestrator *)

(** An element of [notification_dict['items']]. *)
Record Item : Type := mkItem {
  it_food_id : string;
  it_name : unicode;
  it_score : Q;
  it_condition : string;
  it_key_nutrients : list string;
  it_why_now : unicode;
  it_message : unicode;
  it_cta : Cta;
  it_scores_breakdown : Scores;
  it_weights : Weights
}.

(** A [notification_dict]. *)
Record Bundle : Type := mkBundle {
  b_user_id : string;
  b_trigger : string;
  b_generated_at : datetime;
  b_items : list Item
}.

Definition round_scores (s : Scores) : Scores :=
  {| CondMatch := round3 (CondMatch s);
     NutrientGapFit := round3 (NutrientGapFit s);
     AvailabilityBoost := round3 (AvailabilityBoost s);
     RecencyNovelty := round3 (RecencyNovelty s);
     AllergyRisk := round3 (AllergyRisk s) |}.

Definition item_of (notif : NotificationCandidate) : Item :=
  {| it_food_id := food_id (nc_food notif);
     it_name := name (nc_food notif);
     it_score := round3 (nc_score notif);
     it_condition := rs_condition (nc_reasons notif);
     it_key_nutrients := rs_key_nutrients (nc_reasons notif);
     it_why_now := rs_why_now (nc_reasons notif);
     it_message := nc_message notif;
     it_cta := nc_cta notif;
     it_scores_breakdown := round_scores (rs_scores (nc_reasons notif));
     it_weights := weights |}.

(** [self.recent_notifications.get(user_id, [])] *)
Definition user_recent (ag : Agent) (uid : string) : list RecentEntry :=
  default [] (recent_notifications ag !! uid).

(** [l[-20:]] *)
Definition last20 {A} (l : list A) : list A := drop (length l - 20) l.

(** The entry that [_update_recent_notifications] appends. *)
Definition recent_entry (notification : NotificationCandidate)
    (now : datetime) : RecentEntry :=
  {| re_food_id := food_id (nc_food notification);
     re_timestamp := now;
     re_trigger := "recent" |}.

Definition set_recent_notifications (ag : Agent)
    (r : gmap string (list RecentEntry)) : Agent :=
  {| users := users ag; foods := foods ag;
     condition_nutrients := condition_nutrients ag;
     activity_logs := activity_logs ag;
     activity_ts_aware := activity_ts_aware ag;
     message_templates := message_templates ag;
     facts := facts ag;
     recent_notifications := r |}.

(** [_update_recent_notifications] *)
Definition _update_recent_notifications (ag : Agent) (uid : string)
    (notification : NotificationCandidate) (now : datetime) : Agent :=
  set_recent_notifications ag
    (<[uid := last20 (user_recent ag uid ++ [recent_entry notification now])]>
       (recent_notifications ag)).

(** The notifications of [user_recent] dated at or after [today_start]. *)
Definition today_notifications (ag : Agent) (uid : string) (now : datetime)
  : list RecentEntry :=
  let today_start := replace_midnight now in
  List.filter (fun notif => dt_geb (re_timestamp notif) today_start)
              (user_recent ag uid).

(** [_check_rate_limits] *)
Definition _check_rate_limits (ag : Agent) (uid : string) (now : datetime)
  : bool :=
  if (2 <=? length (today_notifications ag uid now))%nat then false
  else
    match last (user_recent ag uid) with
    | Some last_notification =>
        if seconds_between_ltb now (re_timestamp last_notification) 10800
        then false else true
    | None => true
    end.

Section Orchestrator.

Variable tzdb : string -> option TzInfo.
Variable sqrtQ : Q -> Q.
Variable str_lower : unicode -> unicode.

(** The body of the loop over [triggers] in [generate_notifications]:
    [None] when the trigger is skipped, else the bundle appended to
    [all_notifications]; the agent returned carries the update of the
    recent notifications.  Candidates, ranking, messages and the update are
    all asked of [self]. *)
Definition notify_trigger (ag : Agent) (uid : string) (user : User)
    (now : datetime) (trigger : string) : result (option Bundle) * Agent :=
  match send "generate_candidates" (generate_candidates ag user now trigger)
  with
  | Raise e => (Raise e, ag)
  | Ok [] => (Ok None, ag)
  | Ok candidates =>
      match send "rank_candidates"
              (rank_candidates sqrtQ ag candidates user now trigger) with
      | Raise e => (Raise e, ag)
      | Ok ranked =>
          match send "compose_messages"
                  (compose_messages str_lower ag ranked user trigger 1) with
          | Raise e => (Raise e, ag)
          | Ok [] => (Ok None, ag)
          | Ok ((first :: _) as notifications) =>
              match send_st "_update_recent_notifications"
                      (Ok tt, _update_recent_notifications ag uid first now)
                      ag with
              | (Raise e, ag') => (Raise e, ag')
              | (Ok _, ag') =>
                  (Ok (Some {| b_user_id := uid;
                               b_trigger := trigger;
                               b_generated_at := now;
                               b_items := map item_of notifications |}),
                   ag')
              end
          end
      end
  end.

(** The loop over [triggers]: an exception leaves the loop with the agent
    as updated so far. *)
Fixpoint notify_triggers (ag : Agent) (uid : string) (user : User)
    (now : datetime) (triggers : list string) (all_notifications : list Bundle)
  : result (list Bundle) * Agent :=
  match triggers with
  | [] => (Ok all_notifications, ag)
  | trigger :: triggers' =>
      match notify_trigger ag uid user now trigger with
      | (Raise e, ag') => (Raise e, ag')
      | (Ok None, ag') =>
          notify_triggers ag' uid user now triggers' all_notifications
      | (Ok (Some bundle), ag') =>
          notify_triggers ag' uid user now triggers'
                          (all_notifications ++ [bundle])
      end
  end.

(** [generate_notifications], with [now] supplied by the caller: an
    unknown user gets the empty list; for a known user the rate limits are
    asked of [self], then the triggers. *)
Definition generate_notifications (ag : Agent) (uid : string)
    (now : datetime) (rnd : Q) : result (list Bundle) * Agent :=
  match users ag !! uid with
  | None => (Ok [], ag)
  | Some user =>
      match send "_check_rate_limits" (Ok (_check_rate_limits ag uid now)) with
      | Raise e => (Raise e, ag)
      | Ok false => (Ok [], ag)
      | Ok true =>
          match send_st "resolve_triggers"
                  (resolve_triggers tzdb ag user now rnd) ag with
          | (Raise e, ag') => (Raise e, ag')
          | (Ok [], ag') => (Ok [], ag')
          | (Ok triggers, ag') => notify_triggers ag' uid user now triggers []
          end
      end
  end.

(** [agent.generate_notifications(user_id, now)], as the service, the
    demonstration, the evaluator and [run_unit_tests] call it: the name is
    looked up on the agent. *)
Definition call_generate_notifications (ag : Agent) (uid : string)
    (now : datetime) (rnd : Q) : result (list Bundle) * Agent :=
  send_st "generate_notifications" (generate_notifications ag uid now rnd) ag.

End Orchestrator.

(** ** Meal times of the mock data *)

(** [f"{n:02d}"]: the decimal numeral, a minus sign included, padded with a
    zero to two characters. *)
Definition format_02d (n : Z) : string :=
  let s := NilZero.string_of_int (Z.to_int n) in
  if (String.length s <? 2)%nat then String.append "0" s else s.

(** A meal time as [create_users_data] writes it,
    [f"{hour:02d}:{minute}"], the minute being ['00'] or ['30'] there. *)
Definition generated_meal_time (hour : Z) (minute : string) : string :=
  String.append (format_02d hour) (String.append ":" minute).

(** ** Offline evaluation *)

(** [NutritionAgentEvaluator._has_safety_violation]: both subscripts raise
    [KeyError] on a key that is not there; the two checks are asked of
    [self.agent]. *)
Definition _has_safety_violation (ag : Agent) (uid fid : string)
  : result bool :=
  match users ag !! uid with
  | None => Raise (KeyError uid)
  | Some user =>
      match dict_get (foods ag) fid with
      | None => Raise (KeyError fid)
      | Some food =>
          rbind (send "_check_diet_compatibility"
                   (Ok (_check_diet_compatibility user food)))
            (fun compatible =>
               if negb compatible then Ok true
               else
          rbind (send "_has_allergy_risk" (Ok (_has_allergy_risk user food)))
            (fun risk => if risk then Ok true else Ok false))
      end
  end.

(** [d + timedelta(days=n)] *)
Definition plus_days (d : datetime) (n : Z) : datetime :=
  {| instant := instant d + n * usec_per_day; utcoffset := utcoffset d |}.

(** [d.replace(hour=h)]: minutes, seconds and microseconds are kept. *)
Definition replace_hour (d : datetime) (h : Z) : datetime :=
  {| instant := instant d - time_of_day d
                + h * usec_per_hour
                + time_of_day d mod usec_per_hour;
     utcoffset := utcoffset d |}.

(** [for x in xs: ...] with a body that changes the agent: the first
    exception leaves the loop with the agent as changed so far. *)
Fixpoint sfold {A B} (body : B -> Agent -> A -> result B * Agent)
    (xs : list A) (acc : B) (ag : Agent) : result B * Agent :=
  match xs with
  | [] => (Ok acc, ag)
  | x :: xs' =>
      match body acc ag x with
      | (Ok acc', ag') => sfold body xs' acc' ag'
      | (Raise e, ag') => (Raise e, ag')
      end
  end.

(** The counters and the list that [run_offline_evaluation] fills in its
    loops. *)
Record Tally : Type := mkTally {
  all_notifications : list Bundle;
  violations : nat;
  eligible : nat;
  total : nat
}.

(** The dictionary that [run_offline_evaluation] returns. *)
Record Report : Type := mkReport {
  eligibility_rate : Q;
  safety_violations : nat;
  total_notifications : nat;
  diversity_unique_foods : nat;
  diversity_ratio : Q;
  avg_score : Q;
  avg_message_length : Q;
  messages_under_160_chars : Q
}.

(** How a call of [run_offline_evaluation] ends: with its report, with an
    exception of the agent, or with the [ZeroDivisionError] of a division
    of its own. *)
Inductive outcome (A : Type) : Type :=
| Returned (a : A)
| Raised (e : exn)
| ZeroDivisionError.

Arguments Returned {A} a.
Arguments Raised {A} e.
Arguments ZeroDivisionError {A}.

(** [a / b] on two counts, [b] not zero. *)
Definition ratio (a b : nat) : Q :=
  (inject_Z (Z.of_nat a) / inject_Z (Z.of_nat b))%Q.

(** The safety loop over the items of the bundles of one call. *)
Definition count_violations (ag : Agent) (uid : string)
    (notifications : list Bundle) (safety_violations : nat) : result nat :=
  rfold
    (fun safety_violations notif_set =>
       rfold
         (fun safety_violations item =>
            rbind (_has_safety_violation ag uid (it_food_id item))
              (fun violated =>
                 Ok (if violated then S safety_violations
                     else safety_violations)))
         (b_items notif_set) safety_violations)
    notifications safety_violations.

(** The metrics computed after the loops. *)
Definition report_of (tally : Tally) : outcome Report :=
  if (total tally =? 0)%nat then ZeroDivisionError
  else
    let items := concat (map b_items (all_notifications tally)) in
    let all_food_ids := map it_food_id items in
    let unique_foods := size (list_to_set all_food_ids : gset string) in
    let scores := map it_score items in
    let message_lengths :=
      map (fun item => length (it_message item)) items in
    Returned
      {| eligibility_rate := ratio (eligible tally) (total tally);
         safety_violations := violations tally;
         total_notifications := length (all_notifications tally);
         diversity_unique_foods := unique_foods;
         diversity_ratio :=
           match all_food_ids with
           | [] => (0 # 1)%Q
           | _ => ratio unique_foods (length all_food_ids)
           end;
         avg_score :=
           match scores with
           | [] => (0 # 1)%Q
           | _ => Qmean scores
           end;
         avg_message_length :=
           match message_lengths with
           | [] => (0 # 1)%Q
           | _ => Qmean (map (fun l => inject_Z (Z.of_nat l)) message_lengths)
           end;
         messages_under_160_chars :=
           match message_lengths with
           | [] => (0 # 1)%Q
           | _ =>
               ratio (length (filter (fun l => (l <= 160)%nat) message_lengths))
                     (length message_lengths)
           end |}.

Section Evaluation.

Variable tzdb : string -> option TzInfo.
Variable sqrtQ : Q -> Q.
Variable str_lower : unicode -> unicode.

(** The body of the innermost loop of [run_offline_evaluation]: one call
    of [self.agent.generate_notifications] for [user_id] at [test_time]. *)
Definition evaluate_call (test_time : datetime) (rnd : string -> Q)
    (tally : Tally) (ag : Agent) (user_id : string) : result Tally * Agent :=
  match call_generate_notifications tzdb sqrtQ str_lower ag user_id test_time
          (rnd user_id)
  with
  | (Raise e, ag') => (Raise e, ag')
  | (Ok [], ag') =>
      (Ok {| all_notifications := all_notifications tally;
             violations := violations tally;
             eligible := eligible tally;
             total := S (total tally) |}, ag')
  | (Ok notifications, ag') =>
      (rbind (count_violations ag' user_id notifications (violations tally))
         (fun safety_violations =>
            Ok {| all_notifications := all_notifications tally ++ notifications;
                  violations := safety_violations;
                  eligible := S (eligible tally);
                  total := S (total tally) |}),
       ag')
  end.

(** The body of the loop over the hours: the loop over [test_users] at
    [test_time]. *)
Definition evaluate_hour (test_users : list string) (current_time : datetime)
    (rnd : Z -> string -> Q) (tally : Tally) (ag : Agent) (hour : Z)
  : result Tally * Agent :=
  let test_time := replace_hour current_time hour in
  sfold (evaluate_call test_time (rnd hour)) test_users tally ag.

(** The body of the loop over the days: the loop over the four hours. *)
Definition evaluate_day (test_users : list string) (base_time : datetime)
    (draws : Z -> Z -> string -> Q) (tally : Tally) (ag : Agent) (day : Z)
  : result Tally * Agent :=
  let current_time := plus_days base_time day in
  sfold (evaluate_hour test_users current_time (draws day))
        [8; 13; 18; 20] tally ag.

(** The three loops of [run_offline_evaluation]. *)
Definition evaluation_loops (ag : Agent) (test_users : list string)
    (base_time : datetime) (draws : Z -> Z -> string -> Q)
  : result Tally * Agent :=
  sfold (evaluate_day test_users base_time draws)
    [0; 1; 2; 3; 4; 5; 6]
    {| all_notifications := []; violations := 0; eligible := 0; total := 0 |}
    ag.

(** [run_offline_evaluation].  [user_keys] lists the keys of [users] in
    the order of the dictionary, [base_instant] is the reading of
    [datetime.now(pytz.UTC)], and [draws day hour user_id] is what
    [random.random()] returns in the call made for that day, hour and
    user. *)
Definition run_offline_evaluation (ag : Agent) (user_keys : list string)
    (base_instant : Z) (draws : Z -> Z -> string -> Q)
  : outcome Report * Agent :=
  let test_users := firstn 10 user_keys in
  let base_time := {| instant := base_instant; utcoffset := 0 |} in
  match evaluation_loops ag test_users base_time draws with
  | (Raise e, ag') => (Raised e, ag')
  | (Ok tally, ag') => (report_of tally, ag')
  end.

End Evaluation.

(** ** The statistics endpoint of the service *)

(** [d[k] = d.get(k, 0) + 1], and [d[k] += 1] for a key that is there. *)
Definition count_up (counts : list (string * nat)) (key : string)
  : list (string * nat) :=
  dict_set counts key (S (default 0%nat (dict_get counts key))).

(** The branches over [user.age] in [get_system_statistics]. *)
Definition age_group (age : Z) : string :=
  if age <=? 25 then "18-25"
  else if age <=? 35 then "26-35"
  else if age <=? 45 then "36-45"
  else "46+".

Record SystemStatistics : Type := mkSystemStatistics {
  total_users : nat;
  total_foods : nat;
  total_conditions : nat;
  vegetarian_foods_ratio : Q;
  diet_preferences : list (string * nat);
  age_distribution : list (string * nat);
  popular_conditions : list (string * nat)
}.

(** The users in the order in which [get_system_statistics] goes through
    [users.values()]. *)
Definition user_values (ag : Agent) : list User :=
  (map_to_list (users ag)).*2.

(** [get_system_statistics], the handler of [/analytics/system-stats]. *)
Definition get_system_statistics (ag : Agent) : SystemStatistics :=
  let users := user_values ag in
  let diet_distribution :=
    fold_left (fun counts user => count_up counts (diet_pref user)) users [] in
  let age_groups :=
    fold_left (fun counts user => count_up counts (age_group (age user)))
      users
      [("18-25", 0%nat); ("26-35", 0%nat); ("36-45", 0%nat); ("46+", 0%nat)] in
  let foods := dict_values (foods ag) in
  let veg_foods := length (List.filter is_veg foods) in
  let all_conditions := concat (map conditions users) in
  let condition_popularity := fold_left count_up all_conditions [] in
  {| total_users := length users;
     total_foods := length foods;
     total_conditions := size (list_to_set all_conditions : gset string);
     vegetarian_foods_ratio :=
       match foods with
       | [] => (0 # 1)%Q
       | _ => ratio veg_foods (length foods)
       end;
     diet_preferences := diet_distribution;
     age_distribution := age_groups;
     popular_conditions :=
       firstn 5
         (sort_desc (fun kv : string * nat => inject_Z (Z.of_nat (snd kv)))
            condition_popularity) |}.

(** ** A small agent *)

(** Data in the shape of the mock data set: one zone, a five-food catalog,
    the link rows of two conditions, the four templates. *)
Module Sample.

Definition kolkata : TzInfo :=
  {| utcoffset_at := fun _ => 19800 * usec_per_second;
     utcoffset_of_wall := fun _ => 19800 * usec_per_second |}.

Definition tzdb (zone_name : string) : option TzInfo :=
  if String.eqb zone_name "Asia/Kolkata" then Some kolkata
  else if String.eqb zone_name "UTC"
       then Some {| utcoffset_at := fun _ => 0;
                    utcoffset_of_wall := fun _ => 0 |}
  else None.

(** A square root to six decimals. *)
Definition sqrtQ (x : Q) : Q :=
  (inject_Z (Z.sqrt (Qfloor (x * inject_Z 1000000000000)))
   / inject_Z 1000000)%Q.

Definition u001 : User :=
  {| user_id := "u001"; diet_pref := "veg"; allergies := ["nuts"];
     age := 29; gender := "F"; city := "Mumbai"; tz := "Asia/Kolkata";
     usual_meal_times :=
       [("breakfast", "08:00"); ("lunch", "13:00"); ("dinner", "20:00")];
     conditions := ["Glowing skin"; "Hair fall"] |}.

Definition almonds : Food :=
  {| food_id := "f001"; name := codepoints "Soaked Almonds"; is_veg := true;
     ingredients := ["almonds"]; tags := ["nuts"; "protein"];
     nutrients := [("protein", (6 # 1)%Q); ("vitamin_e", (73 # 10)%Q);
                   ("zinc", (9 # 10)%Q); ("fiber", (35 # 10)%Q)] |}.

Definition spinach : Food :=
  {| food_id := "f003"; name := codepoints "Spinach Salad"; is_veg := true;
     ingredients := ["spinach"; "tomatoes"]; tags := ["leafy_greens"];
     nutrients := [("iron", (27 # 10)%Q); ("vitamin_c", (281 # 10)%Q);
                   ("fiber", (22 # 10)%Q); ("folate", (582 # 10)%Q)] |}.

Definition chicken : Food :=
  {| food_id := "f004"; name := codepoints "Grilled Chicken Breast"; is_veg := false;
     ingredients := ["chicken breast"]; tags := ["lean_protein"];
     nutrients := [("protein", (31 # 1)%Q); ("vitamin_b12", (3 # 10)%Q);
                   ("iron", (1 # 1)%Q)] |}.

Definition avocado : Food :=
  {| food_id := "f008"; name := codepoints "Avocado"; is_veg := true;
     ingredients := ["avocado"]; tags := ["healthy_fats"];
     nutrients := [("fiber", (10 # 1)%Q); ("vitamin_e", (21 # 10)%Q);
                   ("potassium", (485 # 1)%Q)] |}.

Definition eggs : Food :=
  {| food_id := "f010"; name := codepoints "Eggs"; is_veg := false;
     ingredients := ["eggs"]; tags := ["complete_protein"];
     nutrients := [("protein", (13 # 1)%Q); ("biotin", (10 # 1)%Q);
                   ("vitamin_b12", (9 # 10)%Q); ("choline", (147 # 1)%Q)] |}.

Definition links : list LinkRow :=
  [ mkLinkRow "Glowing skin" "vitamin_e" (9 # 10)%Q "PMID:12345";
    mkLinkRow "Glowing skin" "zinc" (8 # 10)%Q "PMID:12346";
    mkLinkRow "Glowing skin" "vitamin_c" (7 # 10)%Q "PMID:12347";
    mkLinkRow "Glowing skin" "omega3" (6 # 10)%Q "";
    mkLinkRow "Hair fall" "biotin" (9 # 10)%Q "PMID:23456";
    mkLinkRow "Hair fall" "iron" (8 # 10)%Q "PMID:23457";
    mkLinkRow "Hair fall" "protein" (7 # 10)%Q "PMID:23458";
    mkLinkRow "Hair fall" "zinc" (6 # 10)%Q "" ].

(** The templates of [create_message_templates], code point by code point:
    outside the Latin-1 range the first has U+2020 and U+2019, the second
    U+0178 and U+2019, the third U+20AC and U+201D. *)
Definition templates : gmap string Template :=
  list_to_map
    [ ("pre_meal_basic",
       mkTemplate "pre_meal_basic"
         (codepoints "{food} now for {benefit} " ++ [226; 8224; 8217]%N
          ++ codepoints " supports {condition}. Try {cta}")
         "friendly" "en");
      ("post_workout",
       mkTemplate "post_workout"
         (codepoints
            "Post-workout fuel: {food} provides {benefit} for {condition}. {cta} "
          ++ [240; 376; 8217; 170]%N)
         "punchy" "en");
      ("science_fact",
       mkTemplate "science_fact"
         (codepoints "{why_now} " ++ [226; 8364; 8221]%N
          ++ codepoints " {food} delivers {benefit} for {condition}. {cta}")
         "sciencey" "en");
      ("condition_reminder",
       mkTemplate "condition_reminder"
         (codepoints
            "Haven't focused on {condition} lately? {food} provides {benefit}. {cta}")
         "gentle" "en") ].

(** The facts of [create_fact_database]. *)
Definition fact_table : gmap string unicode :=
  list_to_map
    [ ("morning_boost",
       codepoints "Skin cell turnover peaks overnight " ++ [226; 8364; 8221]%N
       ++ codepoints " support with antioxidants");
      ("pre_meal",
       codepoints "Pre-meal protein moderates glycemic response by 23%");
      ("post_activity",
       codepoints "Glycogen resynthesis is highest within 2 hours post-workout");
      ("evening_repair",
       codepoints "Evening nutrition supports overnight muscle repair");
      ("gut_timing",
       codepoints "Probiotic absorption peaks during active digestion");
      ("iron_absorption",
       codepoints "Vitamin C increases iron absorption by up to 3x");
      ("magnesium_timing",
       codepoints "Magnesium helps muscle relaxation and recovery");
      ("omega3_benefits",
       codepoints "Omega-3s reduce inflammation markers within hours") ].

(** [str.lower] on the names of the sample, which have no letter outside
    A to Z and a to z: a capital letter is moved to the small one. *)
Definition str_lower (s : unicode) : unicode :=
  map (fun c => if ((65 <=? c) && (c <=? 90))%N then (c + 32)%N else c) s.

Definition egg_user : User :=
  {| user_id := "u002"; diet_pref := "egg"; allergies := [];
     age := 41; gender := "M"; city := "Pune"; tz := "Asia/Kolkata";
     usual_meal_times := [("lunch", "12:30")];
     conditions := ["Hair fall"] |}.

Definition nonveg_user : User :=
  {| user_id := "u003"; diet_pref := "nonveg"; allergies := ["dairy"];
     age := 35; gender := "M"; city := "Delhi"; tz := "Asia/Kolkata";
     usual_meal_times := [("dinner", "20:30")];
     conditions := ["Hair fall"] |}.

(** The log of ["u002"]: a workout at 06:00 UTC and eggs eaten at 02:00 UTC
    on 2024-01-15, and a row whose timestamp is missing. *)
Definition activity : list ActivityRow :=
  [ mkActivityRow "u002" (Some (1705298400 * usec_per_second)) "worked_out"
                  None (Some 45);
    mkActivityRow "u002" (Some (1705284000 * usec_per_second)) "consumed"
                  (Some "f010") None;
    mkActivityRow "u002" None "consumed" (Some "f003") None ].

(** The agent as [load_data] leaves it: nothing recorded yet, the
    timestamps of the activity log still naive. *)
Definition agent : Agent :=
  {| users := <[ "u003" := nonveg_user ]>
                (<[ "u002" := egg_user ]> {[ "u001" := u001 ]});
     foods := [("f001", almonds); ("f003", spinach); ("f004", chicken);
               ("f008", avocado); ("f010", eggs)];
     condition_nutrients := links;
     activity_logs := activity;
     activity_ts_aware := false;
     message_templates := templates;
     facts := fact_table;
     recent_notifications := ∅ |}.

(** 2024-01-15 07:00:00 UTC, which is 12:30 in Kolkata. *)
Definition noon : datetime :=
  {| instant := 1705302000 * usec_per_second; utcoffset := 0 |}.

(** 2024-01-15 18:00:00 UTC, which is 23:30 in Kolkata. *)
Definition night : datetime :=
  {| instant := 1705341600 * usec_per_second; utcoffset := 0 |}.


(** The draw of [random.random()] used in the sample calls, and a draw
    below 0.1. *)
Definition draw : Q := (1 # 2)%Q.




Definition entry_at (fid : string) (d : datetime) : RecentEntry :=
  {| re_food_id := fid; re_timestamp := d; re_trigger := "recent" |}.

(** [agent] with a given record for ["u001"]. *)
Definition agent_with (entries : list RecentEntry) : Agent :=
  set_recent_notifications agent {[ "u001" := entries ]}.

(** [agent] once the activity log has been localized. *)
Definition agent_localized : Agent :=
  {| users := users agent; foods := foods agent;
     condition_nutrients := condition_nutrients agent;
     activity_logs := activity_logs agent;
     activity_ts_aware := true;
     message_templates := message_templates agent;
     facts := facts agent;
     recent_notifications := recent_notifications agent |}.

(** A template whose text alone has more than 160 characters. *)
Definition long_template : Template :=
  mkTemplate "long"
    (codepoints
       "{why_now}. {food} is a good choice right now because it provides {benefit}, which is exactly what your body needs to support {condition} today and tomorrow. {cta}!")
    "sciencey" "en".

(** A food whose name makes the first template, filled in for it, exactly
    160 characters long. *)
Definition festive_platter : Food :=
  {| food_id := "f099";
     name := codepoints "Festive Platter of Seasonal Fruits and Mixed Seeds";
     is_veg := true;
     ingredients := ["fruits"; "seeds"]; tags := ["fruits"];
     nutrients := [("vitamin_c", (30 # 1)%Q)] |}.

(** A user without health conditions. *)
Definition carefree_user : User :=
  {| user_id := "u004"; diet_pref := "veg"; allergies := [];
     age := 30; gender := "F"; city := "Pune"; tz := "Asia/Kolkata";
     usual_meal_times := [("lunch", "13:00")];
     conditions := [] |}.

(** [agent] with [carefree_user] among its users. *)
Definition carefree_agent : Agent :=
  {| users := <[ "u004" := carefree_user ]> (users agent);
     foods := foods agent;
     condition_nutrients := condition_nutrients agent;
     activity_logs := activity_logs agent;
     activity_ts_aware := activity_ts_aware agent;
     message_templates := message_templates agent;
     facts := facts agent;
     recent_notifications := recent_notifications agent |}.

End Sample.

(** ** Vocabulary of the statements *)

(** The allergy test in the words of the specification: some tag or
    ingredient of the food is one of the user's allergies. *)
Definition allergen_overlap (user : User) (food : Food) : Prop :=
  exists a, (a ∈ tags food \/ a ∈ ingredients food) /\ a ∈ allergies user.

(** Descending order of the keys. *)
Definition key_geq {A} (key : A -> Q) (x y : A) : Prop :=
  (key y <= key x)%Q.

(** One assignment [target[nutrient] = max(target.get(nutrient, 0), weight)]. *)
Definition target_step (target : list (string * Q)) (row : LinkRow)
  : list (string * Q) :=
  dict_set target (lr_nutrient row)
    (py_max (default (0 # 1)%Q (dict_get target (lr_nutrient row)))
            (lr_weight row)).

(** The rows that the two loops of [target_nutrients] visit, in order. *)
Definition visited_rows (ag : Agent) (user : User) : list LinkRow :=
  concat (map (rows_of_condition ag) (conditions user)).

(** [pd.to_datetime(now).tz_convert("UTC")] *)
Definition to_utc (d : datetime) : datetime :=
  {| instant := instant d; utcoffset := 0 |}.

(** The agent once [resolve_triggers] has localized the activity log. *)
Definition localize_log (ag : Agent) : Agent :=
  {| users := users ag; foods := foods ag;
     condition_nutrients := condition_nutrients ag;
     activity_logs := activity_logs ag;
     activity_ts_aware := true;
     message_templates := message_templates ag;
     facts := facts ag;
     recent_notifications := recent_notifications ag |}.

(** The test of the pre-meal loop of [resolve_triggers] for a meal at
    [h]:[m]: the local time is within 300 seconds of half an hour before
    the meal. *)
Definition pre_meal_due (zone : TzInfo) (user_now : datetime) (h m : Z)
  : bool :=
  abs_seconds_between_leb user_now
    (minus_delta (replace_hour_minute_in zone user_now h m)
                 (30 * usec_per_minute))
    300.



(** The relevance score of one condition for a food and the nutrients that
    contribute to it: the inner loop of
    [_get_primary_condition_and_nutrients]. *)
Definition condition_relevance (ag : Agent) (food : Food) (condition : string)
  : Q * list string :=
  fold_left
    (fun '(score, condition_key_nutrients) row =>
       match dict_get (nutrients food) (lr_nutrient row) with
       | Some amount =>
           if Qltb (0 # 1)%Q amount
           then ((score + lr_weight row * amount)%Q,
                 condition_key_nutrients ++ [lr_nutrient row])
           else (score, condition_key_nutrients)
       | None => (score, condition_key_nutrients)
       end)
    (rows_of_condition ag condition) ((0 # 1)%Q, []).

(** A key nutrient of a food for a condition: linked to the condition and
    present in the food with a positive amount. *)
Definition key_nutrient_of (ag : Agent) (food : Food) (condition n : string)
  : Prop :=
  exists row amount,
    row ∈ condition_nutrients ag
    /\ lr_condition row = condition
    /\ lr_nutrient row = n
    /\ dict_get (nutrients food) n = Some amount
    /\ (0 < amount)%Q.

(** The string contains a space. *)
Fixpoint has_space (s : string) : bool :=
  match s with
  | EmptyString => false
  | String c s' => Ascii.eqb c " " || has_space s'
  end.

(** * Properties *)

(** ** The definitions on small inputs *)

Example strptime_HM_two_digits : strptime_HM "13:00" = Ok (13, 0).
Proof. reflexivity. Qed.

Example strptime_HM_one_digit : strptime_HM "7:5" = Ok (7, 5).
Proof. reflexivity. Qed.

Example strptime_HM_hour_24 : strptime_HM "24:00" = Raise ValueError.
Proof. reflexivity. Qed.

Example strptime_HM_leftover : strptime_HM "12:345" = Raise ValueError.
Proof. reflexivity. Qed.

Example str_replace_all_occurrences :
  str_replace "{food} and {food}!" "{food}" "Avocado" = "Avocado and Avocado!".
Proof. reflexivity. Qed.

Example str_replace_no_overlap : str_replace "aaa" "aa" "b" = "ba".
Proof. reflexivity. Qed.

Example unicode_replace_all_occurrences :
  unicode_replace (codepoints "{food} and {food}!") (codepoints "{food}")
                  (codepoints "Avocado")
  = codepoints "Avocado and Avocado!".
Proof. reflexivity. Qed.

Example unicode_replace_no_overlap :
  unicode_replace (codepoints "aaa") (codepoints "aa") (codepoints "b")
  = codepoints "ba".
Proof. reflexivity. Qed.

Example lower_condition : lower "Glowing Skin" = "glowing skin".
Proof. reflexivity. Qed.

Example condition_trigger_slug :
  condition_trigger "Glowing skin" = "condition_glowing_skin".
Proof. reflexivity. Qed.

(** Equal keys keep their order; the larger key comes first. *)
Example sort_desc_keeps_ties :
  sort_desc snd [("a", (1 # 2)%Q); ("b", (3 # 4)%Q); ("c", (2 # 4)%Q);
                 ("d", (3 # 4)%Q)]
  = [("b", (3 # 4)%Q); ("d", (3 # 4)%Q); ("a", (1 # 2)%Q); ("c", (2 # 4)%Q)].
Proof. reflexivity. Qed.

Example last20_of_22 : last20 (seq 1 22) = seq 3 20.
Proof. reflexivity. Qed.

(** The class has the two methods written before [def resolve_triggers]
    and none of those written after it. *)
Example methods_of_the_class :
  has_method "load_data" = true
  /\ has_method "resolve_triggers" = false
  /\ has_method "generate_notifications" = false
  /\ has_method "_check_rate_limits" = false
  /\ has_method "_check_diet_compatibility" = false.
Proof. repeat split. Qed.

(** For a user without conditions [resolve_triggers] returns: at 12:30 in
    Kolkata, half an hour before a lunch at 13:00, with [pre_lunch]. *)
Example sample_triggers_without_conditions :
  fst (resolve_triggers Sample.tzdb Sample.carefree_agent Sample.carefree_user
                        Sample.noon Sample.draw)
  = Ok ["pre_lunch"].
Proof. vm_compute. reflexivity. Qed.

(** For a user with a condition, outside the quiet hours, the loop over the
    conditions asks the agent for [_should_remind_condition]. *)
Example sample_triggers_at_noon :
  fst (resolve_triggers Sample.tzdb Sample.agent Sample.u001 Sample.noon
                        Sample.draw)
  = Raise AttributeError.
Proof. vm_compute. reflexivity. Qed.

Example sample_candidates_at_noon :
  generate_candidates Sample.agent Sample.u001 Sample.noon "pre_lunch"
  = Raise AttributeError.
Proof. reflexivity. Qed.

Example sample_ranking_at_noon :
  rank_candidates Sample.sqrtQ Sample.agent [Sample.spinach; Sample.avocado]
                  Sample.u001 Sample.noon "pre_lunch"
  = Raise AttributeError.
Proof. reflexivity. Qed.

Example sample_call_at_noon :
  generate_notifications Sample.tzdb Sample.sqrtQ Sample.str_lower
                         Sample.agent "u001" Sample.noon Sample.draw
  = (Raise AttributeError, Sample.agent).
Proof. reflexivity. Qed.

(** Zinc is linked to both conditions of the sample user, with weights 0.8
    and 0.6: the gap target is 0.8, the entry of the condition vector 0.7. *)
Example sample_zinc_target_and_mean :
  dict_get (target_nutrients Sample.agent Sample.u001) "zinc"
  = Some (8 # 10)%Q
  /\ exists i mean,
       all_nutrients Sample.agent Sample.u001 !! i = Some "zinc"
       /\ condition_vector Sample.agent Sample.u001 !! i = Some mean
       /\ (mean == 7 # 10)%Q.
Proof.
  split; [reflexivity|].
  assert (Hin : "zinc" ∈ all_nutrients Sample.agent Sample.u001).
  { apply elem_of_elements, elem_of_list_to_set. vm_compute.
    do 1 apply list_elem_of_further. apply list_elem_of_here. }
  apply list_elem_of_lookup_1 in Hin as (i & Hi).
  exists i. eexists. split; [exact Hi|]. split.
  - unfold condition_vector. change (map ?f ?l) with (f <$> l).
    rewrite list_lookup_fmap, Hi. reflexivity.
  - vm_compute. reflexivity.
Qed.

(** The day of the daily cap starts at the midnight of [now]'s own offset:
    for [now] at 2024-01-15 07:00 UTC an entry of 2024-01-14 23:00 UTC is
    not of today, although it is 04:30 of the 15th in Kolkata. *)
Example today_starts_at_midnight_of_now :
  let late := {| instant := 1705273200 * usec_per_second; utcoffset := 0 |} in
  today_notifications (Sample.agent_with [Sample.entry_at "f003" late])
                      "u001" Sample.noon = []
  /\ hour (astimezone Sample.kolkata late) = 4.
Proof. split; reflexivity. Qed.

(** The first template of the data, filled in for a food with a name of
    fifty characters: 160 characters, among them U+2020 and U+2019, and the
    text is returned whole. *)
Example fill_template_160_code_points :
  let message :=
    _fill_template Sample.str_lower
      (default Sample.long_template (Sample.templates !! "pre_meal_basic"))
      Sample.festive_platter (codepoints "Vitamin C boost")
      (codepoints "Glowing skin") (codepoints "")
      (_generate_cta Sample.festive_platter "Glowing skin") in
  length message = 160%nat
  /\ message
     = codepoints "Festive Platter of Seasonal Fruits and Mixed Seeds now for Vitamin C boost "
       ++ [226; 8224; 8217]%N
       ++ codepoints " supports glowing skin. Try Try festive platter of seasonal fruits and mixed seeds".
Proof. split; reflexivity. Qed.

(** ** Results and loops *)

Lemma rbind_Ok {A B} (r : result A) (k : A -> result B) (b : B) :
  rbind r k = Ok b -> exists a, r = Ok a /\ k a = Ok b.
Proof. destruct r as [a|e]; simpl; [eauto | discriminate]. Qed.

(** ** Method lookup *)

(** The lookup of a name that the class does not define. *)
Lemma send_absent {A} (name : string) (call : result A) :
  has_method name = false -> send name call = Raise AttributeError.
Proof. unfold send. by intros ->. Qed.

(** ** Candidate filter *)

Lemma has_allergy_risk_overlap (user : User) (food : Food) :
  _has_allergy_risk user food = true <-> allergen_overlap user food.
Proof.
  unfold _has_allergy_risk, allergen_overlap.
  rewrite bool_decide_eq_true. split.
  - intros Hpos. apply size_pos_elem_of in Hpos as (a & Ha).
    apply elem_of_intersection in Ha as (Hf & Hu).
    apply elem_of_list_to_set in Hf. apply elem_of_list_to_set in Hu.
    apply elem_of_app in Hf. eauto.
  - intros (a & Hf & Hu).
    assert (Hin : a ∈ (list_to_set (tags food ++ ingredients food) : gset string)
                      ∩ list_to_set (allergies user)).
    { apply elem_of_intersection. split; apply elem_of_list_to_set; [|done].
      apply elem_of_app. done. }
    destruct (size _) eqn:Hsz; [|lia].
    apply size_empty_inv in Hsz. apply Hsz in Hin.
    by apply not_elem_of_empty in Hin.
Qed.


Lemma generate_candidates_empty (ag : Agent) (user : User) (now : datetime)
    (trigger : string) :
  foods ag = [] -> generate_candidates ag user now trigger = Ok [].
Proof. unfold generate_candidates. by intros ->. Qed.


(** ** Message length *)

(** [s[:n]] is the prefix of length [n] of a text that is long enough. *)
Lemma take_prefix (n : nat) (s : unicode) :
  (n <= length s)%nat ->
  exists rest, s = take n s ++ rest /\ length (take n s) = n.
Proof.
  intros Hlen. exists (drop n s). split.
  - by rewrite take_drop.
  - rewrite length_take. lia.
Qed.

(** C6 — message length.  Whatever the template, food, benefit, condition,
    fact and call-to-action, and whatever [str.lower] makes of a text, the
    text returned by [_fill_template] has at most 160 characters (code
    points, as [len] counts them); and when the text obtained by
    substituting the placeholders is longer than 160 characters, the
    returned text is the first 157 characters of it followed by three
    dots.  A substituted text of 160 characters or fewer is returned as it
    is. *)
Theorem fill_template_at_most_160 (str_lower : unicode -> unicode)
    (template : Template) (food : Food)
    (benefit condition why_now : unicode) (cta : Cta) :
  (length (_fill_template str_lower template food benefit condition why_now
                          cta) <= 160)%nat
  /\ ((160 < length (substitute str_lower template food benefit condition
                                why_now cta))%nat ->
      exists head rest,
        substitute str_lower template food benefit condition why_now cta
        = head ++ rest
        /\ length head = 157%nat
        /\ _fill_template str_lower template food benefit condition why_now cta
           = head ++ codepoints "...")
  /\ ((length (substitute str_lower template food benefit condition why_now
                          cta) <= 160)%nat ->
      _fill_template str_lower template food benefit condition why_now cta
      = substitute str_lower template food benefit condition why_now cta).
Proof.
  unfold _fill_template.
  set (filled := substitute str_lower template food benefit condition why_now
                            cta).
  cbv zeta.
  destruct (160 <? length filled)%nat eqn:Hlong.
  - apply Nat.ltb_lt in Hlong. split.
    + rewrite length_app, length_take.
      change (length (codepoints "...")) with 3%nat. lia.
    + split; [|lia].
      intros _. destruct (take_prefix 157 filled) as (rest & Hs & Hl); [lia|].
      exists (take 157 filled), rest. done.
  - apply Nat.ltb_ge in Hlong. split; [done|]. split; [lia | done].
Qed.

(** ** Rate limits *)

(** [replace_midnight] gives the midnight that opens the date of [d] on
    [d]'s own wall clock. *)
Lemma replace_midnight_spec (d : datetime) :
  time_of_day (replace_midnight d) = 0
  /\ utcoffset (replace_midnight d) = utcoffset d
  /\ wall (replace_midnight d) <= wall d < wall (replace_midnight d) + usec_per_day.
Proof.
  unfold replace_midnight, wall. cbn [instant utcoffset].
  unfold time_of_day, wall. cbn [instant utcoffset].
  remember (instant d + utcoffset d) as w eqn:Hw.
  assert (Hday : 0 < usec_per_day) by reflexivity.
  pose proof (Z.mod_pos_bound w usec_per_day Hday) as Hbound.
  split; [|split; [reflexivity | lia]].
  assert (E : instant d - w mod usec_per_day + utcoffset d
              = (w / usec_per_day) * usec_per_day).
  { pose proof (Z.div_mod w usec_per_day). lia. }
  rewrite E. apply Z.mod_mul. lia.
Qed.

Lemma today_notifications_elem (ag : Agent) (uid : string) (now : datetime)
    (e : RecentEntry) :
  e ∈ today_notifications ag uid now <->
  e ∈ user_recent ag uid
  /\ instant (replace_midnight now) <= instant (re_timestamp e).
Proof.
  unfold today_notifications, dt_geb.
  rewrite list_elem_of_In, filter_In, <- list_elem_of_In, Z.leb_le. done.
Qed.

(** The two rules of [_check_rate_limits]. *)
Lemma check_rate_limits_cap (ag : Agent) (uid : string) (now : datetime) :
  (2 <= length (today_notifications ag uid now))%nat ->
  _check_rate_limits ag uid now = false.
Proof.
  intros Hcap. unfold _check_rate_limits.
  apply Nat.leb_le in Hcap. by rewrite Hcap.
Qed.

Lemma check_rate_limits_gap (ag : Agent) (uid : string) (now : datetime)
    (last_notification : RecentEntry) :
  last (user_recent ag uid) = Some last_notification ->
  (instant now - instant (re_timestamp last_notification) < 3 * usec_per_hour ->
   _check_rate_limits ag uid now = false)
  /\ (3 * usec_per_hour <= instant now - instant (re_timestamp last_notification) ->
      _check_rate_limits ag uid now
      = negb (2 <=? length (today_notifications ag uid now))%nat).
Proof.
  intros Hlast.
  assert (Hunits : 3 * usec_per_hour = 10800 * usec_per_second) by reflexivity.
  split; intros Hgap.
  - unfold _check_rate_limits. rewrite Hlast.
    destruct (2 <=? _)%nat; [reflexivity|].
    unfold seconds_between_ltb.
    destruct (_ <? _) eqn:Hlt; [reflexivity|].
    apply Z.ltb_ge in Hlt. lia.
  - unfold _check_rate_limits. rewrite Hlast.
    destruct (2 <=? _)%nat; [reflexivity|].
    unfold seconds_between_ltb.
    destruct (_ <? _) eqn:Hlt; [|reflexivity].
    apply Z.ltb_lt in Hlt. lia.
Qed.

Section Calls.

Variable tzdb : string -> option TzInfo.
Variable sqrtQ : Q -> Q.
Variable str_lower : unicode -> unicode.

(** For a user the agent knows, the body of [generate_notifications] asks
    the agent for [_check_rate_limits] and gets no further. *)
Lemma generate_notifications_known (ag : Agent) (uid : string) (user : User)
    (now : datetime) (rnd : Q) :
  users ag !! uid = Some user ->
  generate_notifications tzdb sqrtQ str_lower ag uid now rnd
  = (Raise AttributeError, ag).
Proof. intros Huser. unfold generate_notifications. by rewrite Huser. Qed.

Lemma generate_notifications_unknown (ag : Agent) (uid : string)
    (now : datetime) (rnd : Q) :
  users ag !! uid = None ->
  generate_notifications tzdb sqrtQ str_lower ag uid now rnd = (Ok [], ag).
Proof. intros Huser. unfold generate_notifications. by rewrite Huser. Qed.

(** Asked of an agent, [generate_notifications] is not found. *)
Lemma call_generate_notifications_raises (ag : Agent) (uid : string)
    (now : datetime) (rnd : Q) :
  call_generate_notifications tzdb sqrtQ str_lower ag uid now rnd
  = (Raise AttributeError, ag).
Proof. reflexivity. Qed.

(** No call changes the agent. *)
Lemma generate_notifications_agent (ag : Agent) (uid : string)
    (now : datetime) (rnd : Q) :
  snd (generate_notifications tzdb sqrtQ str_lower ag uid now rnd) = ag.
Proof.
  destruct (users ag !! uid) as [user|] eqn:Huser.
  - by rewrite (generate_notifications_known ag uid user).
  - by rewrite generate_notifications_unknown.
Qed.




End Calls.

(** ** Ranking *)

Section SortDesc.

Context {A : Type} (key : A -> Q).

Lemma insert_desc_perm (x : A) (l : list A) :
  Permutation (insert_desc key x l) (x :: l).
Proof.
  induction l as [|y l IH]; simpl; [reflexivity|].
  destruct (Qle_bool (key y) (key x)); [reflexivity|].
  rewrite IH. apply perm_swap.
Qed.

Lemma sort_desc_perm (l : list A) : Permutation (sort_desc key l) l.
Proof.
  induction l as [|x l IH]; simpl; [reflexivity|].
  rewrite insert_desc_perm. by apply perm_skip.
Qed.

Lemma insert_desc_sorted (x : A) (l : list A) :
  StronglySorted (key_geq key) l -> StronglySorted (key_geq key) (insert_desc key x l).
Proof.
  induction 1 as [|y l Hsorted IH Hall]; simpl.
  - repeat constructor.
  - destruct (Qle_bool (key y) (key x)) eqn:Hle.
    + apply Qle_bool_iff in Hle.
      constructor; [by constructor|]. constructor; [exact Hle|].
      eapply Forall_impl; [exact Hall|].
      intros z Hz. unfold key_geq in *. by eapply Qle_trans.
    + constructor; [exact IH|].
      assert (Hxy : key_geq key y x).
      { unfold key_geq. destruct (Qlt_le_dec (key y) (key x)) as [Hlt|Hge];
          [|exact Hge].
        apply Qlt_le_weak, Qle_bool_iff in Hlt. congruence. }
      eapply Permutation_Forall; [symmetry; apply insert_desc_perm|].
      by constructor.
Qed.

Lemma sort_desc_sorted (l : list A) : StronglySorted (key_geq key) (sort_desc key l).
Proof.
  induction l as [|x l IH]; simpl; [constructor|].
  by apply insert_desc_sorted.
Qed.

(** Stability: the elements whose key equals [v] come out in the order in
    which they went in. *)
Lemma insert_desc_stable (v : Q) (x : A) (l : list A) :
  List.filter (fun a => Qeq_bool (key a) v) (insert_desc key x l)
  = List.filter (fun a => Qeq_bool (key a) v) (x :: l).
Proof.
  induction l as [|y l IH]; [reflexivity|].
  cbn [insert_desc].
  destruct (Qle_bool (key y) (key x)) eqn:Hle; [reflexivity|].
  cbn [List.filter] in *. rewrite IH.
  destruct (Qeq_bool (key x) v) eqn:Hx, (Qeq_bool (key y) v) eqn:Hy;
    try reflexivity.
  apply Qeq_bool_iff in Hx, Hy.
  assert (Hyx : (key y <= key x)%Q) by (rewrite Hx, Hy; apply Qle_refl).
  apply Qle_bool_iff in Hyx. congruence.
Qed.

Lemma sort_desc_stable (v : Q) (l : list A) :
  List.filter (fun a => Qeq_bool (key a) v) (sort_desc key l)
  = List.filter (fun a => Qeq_bool (key a) v) l.
Proof.
  induction l as [|x l IH]; [reflexivity|].
  cbn [sort_desc]. rewrite insert_desc_stable. cbn [List.filter].
  by rewrite IH.
Qed.

End SortDesc.

Section Ranking.

Variable sqrtQ : Q -> Q.

(** C7 — ranking.  The weights are 0.4, 0.3, 0.2, 0.1 and 0.8, and the
    total that [rank_candidates] would give a candidate is
    0.4 CondMatch + 0.3 NutrientGapFit + 0.2 AvailabilityBoost
    + 0.1 RecencyNovelty - 0.8 AllergyRisk of its scores.  But no candidate
    gets a total and no list comes back sorted: for every user, instant and
    trigger and every candidate list that is not empty, [rank_candidates]
    raises [AttributeError] when it asks the agent for [_calculate_scores];
    only the empty list is ranked, to the empty list. *)
Theorem rank_candidates_raises (ag : Agent) (food : Food)
    (candidates : list Food) (user : User) (now : datetime)
    (trigger : string) :
  (forall scores,
      total_score scores
      = ((4 # 10) * CondMatch scores
         + (3 # 10) * NutrientGapFit scores
         + (2 # 10) * AvailabilityBoost scores
         + (1 # 10) * RecencyNovelty scores
         - (8 # 10) * AllergyRisk scores)%Q)
  /\ rank_candidates sqrtQ ag (food :: candidates) user now trigger
     = Raise AttributeError
  /\ rank_candidates sqrtQ ag [] user now trigger = Ok [].
Proof. split; [reflexivity|]. split; reflexivity. Qed.

End Ranking.

(** ** Aggregation of link weights *)

Lemma dict_get_set_eq {V} (d : list (string * V)) (k : string) (v : V) :
  dict_get (dict_set d k v) k = Some v.
Proof.
  induction d as [|[k' v'] d IH]; simpl.
  - by rewrite String.eqb_refl.
  - destruct (String.eqb k' k) eqn:E; simpl; rewrite E; [reflexivity | exact IH].
Qed.

Lemma dict_get_set_ne {V} (d : list (string * V)) (k k' : string) (v : V) :
  k <> k' -> dict_get (dict_set d k v) k' = dict_get d k'.
Proof.
  intros Hne. induction d as [|[k0 v0] d IH]; simpl.
  - apply String.eqb_neq in Hne. by rewrite Hne.
  - destruct (String.eqb k0 k) eqn:E; simpl.
    + apply String.eqb_eq in E. subst k0.
      apply String.eqb_neq in Hne. by rewrite Hne.
    + by rewrite IH.
Qed.

Lemma target_nutrients_visited (ag : Agent) (user : User) :
  target_nutrients ag user = fold_left target_step (visited_rows ag user) [].
Proof.
  unfold target_nutrients, visited_rows. generalize (@nil (string * Q)).
  induction (conditions user) as [|c cs IH]; intros acc; simpl; [reflexivity|].
  rewrite fold_left_app. apply IH.
Qed.

Lemma visited_rows_elem (ag : Agent) (user : User) (r : LinkRow) :
  r ∈ visited_rows ag user <-> r ∈ rows_of_user ag user.
Proof.
  unfold visited_rows, rows_of_user, rows_of_condition.
  rewrite list_elem_of_In, in_concat, list_elem_of_filter. split.
  - intros (rows & Hrows & Hr). apply in_map_iff in Hrows as (c & <- & Hc).
    apply list_elem_of_In, list_elem_of_filter in Hr as (Hcond & Hin).
    split; [|exact Hin]. rewrite Hcond. by apply list_elem_of_In.
  - intros (Hcond & Hin).
    exists (filter (fun r' => lr_condition r' = lr_condition r)
                   (condition_nutrients ag)). split.
    + apply in_map_iff. exists (lr_condition r). split; [reflexivity|].
      by apply list_elem_of_In.
    + apply list_elem_of_In, list_elem_of_filter. done.
Qed.

Lemma weights_of_nutrient_elem (rows : list LinkRow) (nutrient : string) (w : Q) :
  w ∈ weights_of_nutrient rows nutrient <->
  exists r, r ∈ rows /\ lr_nutrient r = nutrient /\ lr_weight r = w.
Proof.
  unfold weights_of_nutrient. rewrite list_elem_of_In, in_map_iff. split.
  - intros (r & Hw & Hr). apply list_elem_of_In, list_elem_of_filter in Hr.
    exists r. tauto.
  - intros (r & Hr & Hn & Hw). exists r. split; [exact Hw|].
    apply list_elem_of_In, list_elem_of_filter. done.
Qed.

Lemma py_max_cases (a b : Q) :
  (py_max a b = a \/ py_max a b = b)
  /\ (a <= py_max a b)%Q /\ (b <= py_max a b)%Q.
Proof.
  unfold py_max, Qltb. destruct (Qle_bool b a) eqn:Hle; simpl.
  - apply Qle_bool_iff in Hle. split; [by left|]. split; [apply Qle_refl | exact Hle].
  - split; [by right|]. split; [|apply Qle_refl].
    destruct (Qlt_le_dec a b) as [Hlt|Hge]; [by apply Qlt_le_weak|].
    apply Qle_bool_iff in Hge. congruence.
Qed.

Lemma target_fold_keeps (rows : list LinkRow) (nutrient : string) :
  forall acc : list (string * Q),
    is_Some (dict_get acc nutrient) ->
    is_Some (dict_get (fold_left target_step rows acc) nutrient).
Proof.
  induction rows as [|r rows IH]; intros acc Hsome; [exact Hsome|].
  cbn [fold_left]. apply IH. unfold target_step.
  destruct (decide (lr_nutrient r = nutrient)) as [Heq|Hne].
  - rewrite Heq, dict_get_set_eq. done.
  - by rewrite dict_get_set_ne.
Qed.

(** After the loop the entry of [nutrient] bounds the entry it had before
    and every weight visited for it, and it is one of those values. *)
Lemma target_fold_entry (rows : list LinkRow) (nutrient : string) :
  forall acc : list (string * Q),
    let before := default (0 # 1)%Q (dict_get acc nutrient) in
    let after :=
      default (0 # 1)%Q (dict_get (fold_left target_step rows acc) nutrient) in
    (before <= after)%Q
    /\ (forall w, w ∈ weights_of_nutrient rows nutrient -> (w <= after)%Q)
    /\ (after = before \/ after ∈ weights_of_nutrient rows nutrient)
    /\ (weights_of_nutrient rows nutrient <> [] ->
        is_Some (dict_get (fold_left target_step rows acc) nutrient)).
Proof.
  induction rows as [|r rows IH]; intros acc; cbn zeta.
  - simpl. split; [apply Qle_refl|]. split.
    + intros w Hw. by apply elem_of_nil in Hw.
    + split; [by left | done].
  - cbn [fold_left].
    specialize (IH (target_step acc r)). cbn zeta in IH.
    destruct IH as (Hmono & Hbound & Hcases & Hsome).
    unfold weights_of_nutrient in *. rewrite filter_cons.
    destruct (decide (lr_nutrient r = nutrient)) as [Heq|Hne].
    + cbn [map].
      assert (Hstep : default (0 # 1)%Q (dict_get (target_step acc r) nutrient)
                      = py_max (default (0 # 1)%Q (dict_get acc nutrient))
                               (lr_weight r)).
      { unfold target_step. rewrite Heq, dict_get_set_eq. reflexivity. }
      rewrite Hstep in Hmono, Hcases.
      destruct (py_max_cases (default (0 # 1)%Q (dict_get acc nutrient))
                  (lr_weight r)) as (Hpick & Hge1 & Hge2).
      split; [by eapply Qle_trans|]. split.
      * intros w Hw. apply elem_of_cons in Hw as [->|Hw]; [|by apply Hbound].
        by eapply Qle_trans.
      * split.
        -- destruct Hcases as [Hc|Hc].
           ++ destruct Hpick as [Hp|Hp]; rewrite Hc, Hp; [by left|].
              right. by left.
           ++ right. by right.
        -- intros _. apply target_fold_keeps.
           unfold target_step. rewrite Heq, dict_get_set_eq. done.
    + assert (Hstep : dict_get (target_step acc r) nutrient
                      = dict_get acc nutrient).
      { unfold target_step. by rewrite dict_get_set_ne. }
      rewrite Hstep in Hmono, Hcases. done.
Qed.

Lemma weights_visited_elem (ag : Agent) (user : User) (nutrient : string)
    (w : Q) :
  w ∈ weights_of_nutrient (visited_rows ag user) nutrient <->
  w ∈ weights_of_nutrient (rows_of_user ag user) nutrient.
Proof.
  rewrite !weights_of_nutrient_elem.
  split; intros (r & Hr & Hrest); exists r; (split; [|exact Hrest]);
    by apply visited_rows_elem.
Qed.

(** C8 — two aggregations of the same link rows.  Take the rows of the
    condition–nutrient table whose condition is one of the user's, and among
    them the (non-negative) weights recorded for one nutrient.  The gap
    target of the nutrient in [_calculate_nutrient_gap_fit] is the maximum
    of these weights: it bounds each of them and equals one of them.  The
    entry of the nutrient in the condition vector of
    [_calculate_condition_match] is their mean: their sum divided by their
    number. *)
Theorem gap_target_is_max_vector_entry_is_mean (ag : Agent) (user : User)
    (nutrient : string) :
  let ws := weights_of_nutrient (rows_of_user ag user) nutrient in
  ws <> [] ->
  (forall w, w ∈ ws -> (0 <= w)%Q) ->
  (exists target,
      dict_get (target_nutrients ag user) nutrient = Some target
      /\ (forall w, w ∈ ws -> (w <= target)%Q)
      /\ (exists w, w ∈ ws /\ (target == w)%Q))
  /\ (exists i,
         all_nutrients ag user !! i = Some nutrient
         /\ condition_vector ag user !! i
            = Some (Qsum ws / inject_Z (Z.of_nat (length ws)))%Q).
Proof.
  intros ws Hne Hpos.
  assert (Hex : exists w0, w0 ∈ ws).
  { destruct ws as [|w0 ws'] eqn:Hws; [done|]. exists w0. by left. }
  destruct Hex as (w0 & Hw0). split.
  - rewrite target_nutrients_visited.
    destruct (target_fold_entry (visited_rows ag user) nutrient [])
      as (_ & Hbound & Hcases & Hsome).
    destruct Hsome as (target & Htarget).
    { intros Hnil. apply weights_visited_elem in Hw0.
      rewrite Hnil in Hw0. by apply elem_of_nil in Hw0. }
    rewrite Htarget in Hbound, Hcases. simpl in Hbound, Hcases.
    exists target. split; [exact Htarget|]. split.
    + intros w Hw. by apply Hbound, weights_visited_elem.
    + destruct Hcases as [Hzero|Hin].
      * exists w0. split; [exact Hw0|]. apply Qle_antisym.
        -- rewrite Hzero. by apply Hpos.
        -- by apply Hbound, weights_visited_elem.
      * exists target. split; [by apply weights_visited_elem | reflexivity].
  - assert (Hin : nutrient ∈ all_nutrients ag user).
    { unfold all_nutrients. apply elem_of_elements, elem_of_list_to_set.
      apply weights_of_nutrient_elem in Hw0 as (r & Hr & Hn & _).
      apply list_elem_of_In, in_map_iff. exists r.
      split; [exact Hn | by apply list_elem_of_In]. }
    apply list_elem_of_lookup_1 in Hin as (i & Hi).
    exists i. split; [exact Hi|].
    unfold condition_vector.
    change (map ?f ?l) with (f <$> l).
    rewrite list_lookup_fmap, Hi. cbn [fmap option_fmap option_map].
    fold ws. destruct ws; [done | reflexivity].
Qed.

(** ** The record of recent notifications *)

Lemma update_recent_same_user (ag : Agent) (uid : string)
    (notif : NotificationCandidate) (now : datetime) :
  user_recent (_update_recent_notifications ag uid notif now) uid
  = last20 (user_recent ag uid ++ [recent_entry notif now]).
Proof.
  unfold user_recent at 1, _update_recent_notifications. simpl.
  by rewrite lookup_insert_eq.
Qed.

Lemma update_recent_other_user (ag : Agent) (uid uid' : string)
    (notif : NotificationCandidate) (now : datetime) :
  uid <> uid' ->
  user_recent (_update_recent_notifications ag uid notif now) uid'
  = user_recent ag uid'.
Proof.
  intros Hne. unfold user_recent, _update_recent_notifications. simpl.
  by rewrite lookup_insert_ne.
Qed.

(** [l[-20:]] is the end of [l]: what is cut off stands in front, and what
    is kept has the length of [l] up to twenty. *)
Lemma last20_suffix {A} (l : list A) :
  l = take (length l - 20) l ++ last20 l
  /\ length (last20 l) = Nat.min 20 (length l).
Proof.
  unfold last20. split.
  - by rewrite take_drop.
  - rewrite length_drop. lia.
Qed.

Section Record.

Variable tzdb : string -> option TzInfo.
Variable sqrtQ : Q -> Q.
Variable str_lower : unicode -> unicode.


(** C10 — one check per call.  The body of [generate_notifications] has
    one rate-limit check, placed before the triggers are resolved; it is
    also where every call for a known user ends, with [AttributeError].
    So no call appends an entry to any record, let alone two: whatever the
    agent, user, instant and draw, the agent after the call is the agent
    before it, a call that returns returns the empty list, and the number
    of entries of the current day is what it was. *)
Theorem no_call_records_an_entry (ag : Agent) (uid : string)
    (now : datetime) (rnd : Q) :
  let call := generate_notifications tzdb sqrtQ str_lower ag uid now rnd in
  (forall user, users ag !! uid = Some user -> fst call = Raise AttributeError)
  /\ (forall bundles, fst call = Ok bundles -> bundles = [])
  /\ snd call = ag
  /\ (forall other, user_recent (snd call) other = user_recent ag other)
  /\ length (today_notifications (snd call) uid now)
     = length (today_notifications ag uid now)
  /\ call_generate_notifications tzdb sqrtQ str_lower ag uid now rnd
     = (Raise AttributeError, ag).
Proof.
  cbv zeta.
  pose proof (generate_notifications_agent tzdb sqrtQ str_lower ag uid now rnd)
    as Hagent.
  split.
  - intros user Huser.
    by rewrite (generate_notifications_known _ _ _ ag uid user).
  - split.
    + intros bundles.
      destruct (users ag !! uid) as [user|] eqn:Huser.
      * by rewrite (generate_notifications_known _ _ _ ag uid user).
      * rewrite generate_notifications_unknown by done.
        cbn [fst]. congruence.
    + split; [exact Hagent|]. rewrite Hagent.
      split; [done|]. split; [done|].
      apply call_generate_notifications_raises.
Qed.

End Record.

(** ** Quiet hours *)

(** On an agent whose activity log is still naive, a resolution during the
    quiet hours of the user's zone returns no trigger. *)
Lemma resolve_triggers_quiet_first_call (tzdb : string -> option TzInfo)
    (ag : Agent) (user : User) (now : datetime) (rnd : Q) (zone : TzInfo) :
  activity_ts_aware ag = false ->
  tzdb (tz user) = Some zone ->
  22 <= hour (astimezone zone now) \/ hour (astimezone zone now) <= 7 ->
  fst (resolve_triggers tzdb ag user now rnd) = Ok []
  /\ activity_ts_aware (snd (resolve_triggers tzdb ag user now rnd)) = true.
Proof.
  intros Hnaive Hzone Hquiet. unfold resolve_triggers.
  rewrite Hnaive, Hzone.
  change (astimezone zone {| instant := instant now; utcoffset := 0 |})
    with (astimezone zone now).
  destruct ((22 <=? hour (astimezone zone now))
            || (hour (astimezone zone now) <=? 7)) eqn:Hq; [done|].
  apply orb_false_iff in Hq as (H22 & H7).
  apply Z.leb_gt in H22, H7. lia.
Qed.

(** Once the activity log is localized, every resolution raises: the
    column is localized again before anything else is looked at. *)
Lemma resolve_triggers_localized_raises (tzdb : string -> option TzInfo)
    (ag : Agent) (user : User) (now : datetime) (rnd : Q) :
  activity_ts_aware ag = true ->
  resolve_triggers tzdb ag user now rnd = (Raise TypeError, ag).
Proof. intros Haware. unfold resolve_triggers. by rewrite Haware. Qed.

(** C4 — quiet hours, on the second resolution.  At 23:30 in Kolkata the
    first call of [resolve_triggers] on a freshly loaded agent returns the
    empty list, as the quiet-hours rule says; the same call repeated on the
    agent it leaves behind returns nothing: it raises [TypeError], because
    the timestamps of the activity log are already timezone-aware when
    [tz_localize] is applied to them again. *)
Theorem quiet_hours_second_call_raises :
  let first_call :=
    resolve_triggers Sample.tzdb Sample.agent Sample.u001 Sample.night
                     Sample.draw in
  hour (astimezone Sample.kolkata Sample.night) = 23
  /\ fst first_call = Ok []
  /\ resolve_triggers Sample.tzdb (snd first_call) Sample.u001 Sample.night
                      Sample.draw
     = (Raise TypeError, snd first_call).
Proof.
  cbv zeta. split; [reflexivity|]. split; [reflexivity|].
  apply resolve_triggers_localized_raises. reflexivity.
Qed.

(** ** The statements at work on the sample agent *)





(** A template of more than 160 characters, filled in with a fact that has
    characters outside the Latin-1 range: cut after 157 characters. *)
Lemma fill_template_at_most_160_witness :
  let why_now :=
    default [] (Sample.fact_table !! "morning_boost") in
  exists head rest,
    substitute Sample.str_lower Sample.long_template Sample.spinach
               (codepoints "Vitamin C boost") (codepoints "Glowing skin")
               why_now (_generate_cta Sample.spinach "Glowing skin")
    = head ++ rest
    /\ length head = 157%nat
    /\ _fill_template Sample.str_lower Sample.long_template Sample.spinach
                      (codepoints "Vitamin C boost")
                      (codepoints "Glowing skin") why_now
                      (_generate_cta Sample.spinach "Glowing skin")
       = head ++ codepoints "...".
Proof.
  cbv zeta.
  apply (fill_template_at_most_160 Sample.str_lower Sample.long_template
           Sample.spinach (codepoints "Vitamin C boost")
           (codepoints "Glowing skin")
           (default [] (Sample.fact_table !! "morning_boost"))
           (_generate_cta Sample.spinach "Glowing skin")).
  vm_compute. lia.
Defined.

Lemma gap_target_is_max_vector_entry_is_mean_witness :
  let ws := weights_of_nutrient (rows_of_user Sample.agent Sample.u001) "zinc" in
  (exists target,
      dict_get (target_nutrients Sample.agent Sample.u001) "zinc" = Some target
      /\ (forall w, w ∈ ws -> (w <= target)%Q)
      /\ (exists w, w ∈ ws /\ (target == w)%Q))
  /\ (exists i,
         all_nutrients Sample.agent Sample.u001 !! i = Some "zinc"
         /\ condition_vector Sample.agent Sample.u001 !! i
            = Some (Qsum ws / inject_Z (Z.of_nat (length ws)))%Q).
Proof.
  apply (gap_target_is_max_vector_entry_is_mean Sample.agent Sample.u001 "zinc").
  - vm_compute. discriminate.
  - intros w Hw. vm_compute in Hw.
    repeat (apply elem_of_cons in Hw as [->|Hw]; [vm_compute; discriminate|]).
    by apply elem_of_nil in Hw.
Defined.


(** * Further properties of the code *)

(** ** Meal times *)

Lemma parse_field_bounds (bound : Z) (s rest : string) (v : Z) :
  9 <= bound ->
  parse_field bound s = Some (v, rest) -> 0 <= v <= bound.
Proof.
  intros Hbound. unfold parse_field.
  destruct s as [|a s1]; [discriminate|].
  destruct (digit_of a) as [x|] eqn:Hx; [|discriminate].
  assert (Hxr : 0 <= x <= 9).
  { unfold digit_of in Hx.
    destruct ((48 <=? nat_of_ascii a)%nat && (nat_of_ascii a <=? 57)%nat) eqn:E;
      [|discriminate].
    apply andb_true_iff in E as (E1 & E2).
    apply Nat.leb_le in E1, E2. injection Hx as <-. lia. }
  destruct s1 as [|b s2].
  - intros [= <- <-]. lia.
  - destruct (digit_of b) as [y|] eqn:Hy.
    + destruct (10 * x + y <=? bound) eqn:Hle.
      * intros [= <- <-]. apply Z.leb_le in Hle.
        unfold digit_of in Hy.
        destruct ((48 <=? nat_of_ascii b)%nat && (nat_of_ascii b <=? 57)%nat);
          [|discriminate].
        injection Hy as <-. lia.
      * intros [= <- <-]. lia.
    + intros [= <- <-]. lia.
Qed.

(** X1 — A meal time that parses is a time of day: the hour is in 0..23 and the
    minute in 0..59. *)
Theorem strptime_HM_range (s : string) (h m : Z) :
  strptime_HM s = Ok (h, m) -> 0 <= h <= 23 /\ 0 <= m <= 59.
Proof.
  unfold strptime_HM.
  destruct (parse_field 23 s) as [[h' rest]|] eqn:Hh; [|discriminate].
  destruct rest as [|c rest]; [discriminate|].
  destruct (Ascii.eqb c ":") eqn:Hc.
  - apply Ascii.eqb_eq in Hc. subst c.
    destruct (parse_field 59 rest) as [[m' rest']|] eqn:Hm; [|discriminate].
    destruct rest'; [|discriminate].
    intros [= <- <-].
    apply parse_field_bounds in Hh; [|lia].
    apply parse_field_bounds in Hm; [|lia]. done.
  - apply Ascii.eqb_neq in Hc. intros Hparse. exfalso.
    destruct c as [[] [] [] [] [] [] [] []]; try discriminate Hparse.
    by apply Hc.
Qed.

Lemma strptime_HM_range_witness :
  strptime_HM "13:00" = Ok (13, 0) /\ 0 <= 13 <= 23 /\ 0 <= 0 <= 59.
Proof.
  split; [reflexivity|].
  apply (strptime_HM_range "13:00" 13 0). reflexivity.
Defined.

Lemma str_append_empty (s : string) : String.append s "" = s.
Proof.
  induction s as [|c s IH]; [reflexivity|].
  change (String c (String.append s "") = String c s). by rewrite IH.
Qed.

Lemma parse_hour_format_02d (n : Z) (rest : string) :
  0 <= n <= 23 ->
  parse_field 23 (String.append (format_02d n) rest) = Some (n, rest).
Proof.
  intros Hn. rewrite <- (Z2Nat.id n) in * by lia.
  assert (Hk : (Z.to_nat n <= 23)%nat) by lia.
  generalize dependent (Z.to_nat n). clear n. intros k _ Hk.
  do 24 (destruct k as [|k]; [reflexivity|]). lia.
Qed.

Lemma parse_minute_format_02d (n : Z) (rest : string) :
  0 <= n <= 59 ->
  parse_field 59 (String.append (format_02d n) rest) = Some (n, rest).
Proof.
  intros Hn. rewrite <- (Z2Nat.id n) in * by lia.
  assert (Hk : (Z.to_nat n <= 59)%nat) by lia.
  generalize dependent (Z.to_nat n). clear n. intros k _ Hk.
  do 60 (destruct k as [|k]; [reflexivity|]). lia.
Qed.

(** X2 — The meal times of the mock users parse back: a time written as
    [f"{h:02d}:{m:02d}"] with [h] in 0..23 and [m] in 0..59 is read by
    [strptime] as [h] hours and [m] minutes; so are the generator's
    [f"{h:02d}:00"] and [f"{h:02d}:30"]. *)
Theorem generated_meal_time_parses (h m : Z) :
  0 <= h <= 23 -> 0 <= m <= 59 ->
  strptime_HM (generated_meal_time h (format_02d m)) = Ok (h, m)
  /\ strptime_HM (generated_meal_time h "00") = Ok (h, 0)
  /\ strptime_HM (generated_meal_time h "30") = Ok (h, 30).
Proof.
  intros Hh Hm.
  assert (Hparse : forall minute v,
             parse_field 59 minute = Some (v, "") ->
             strptime_HM (generated_meal_time h minute) = Ok (h, v)).
  { intros minute v Hminute. unfold strptime_HM, generated_meal_time.
    rewrite parse_hour_format_02d by lia.
    change (String.append ":" minute) with (String ":" minute).
    cbv beta iota. by rewrite Hminute. }
  split; [|split; by apply Hparse].
  apply Hparse.
  pose proof (parse_minute_format_02d m "" Hm) as Hminute.
  by rewrite str_append_empty in Hminute.
Qed.

Lemma generated_meal_time_parses_witness :
  strptime_HM (generated_meal_time 7 (format_02d 5)) = Ok (7, 5)
  /\ strptime_HM (generated_meal_time 7 "00") = Ok (7, 0)
  /\ strptime_HM (generated_meal_time 7 "30") = Ok (7, 30).
Proof.
  apply (generated_meal_time_parses 7 5); lia.
Defined.


(** ** What the trigger resolver returns *)

Lemma pre_meal_loop_elem (zone : TzInfo) (user_now : datetime)
    (meals : list (string * string)) :
  forall acc res,
    rfold
      (fun triggers '(meal, meal_time) =>
         rbind (strptime_HM meal_time) (fun '(h, m) =>
           let meal_with_date :=
             replace_hour_minute_in zone user_now h m in
           let pre_meal_time :=
             minus_delta meal_with_date (30 * usec_per_minute) in
           if abs_seconds_between_leb user_now pre_meal_time 300
           then Ok (triggers ++ [String.append "pre_" meal])
           else Ok triggers))
      meals acc = Ok res ->
    forall t,
      t ∈ res <->
      t ∈ acc
      \/ exists meal meal_time h m,
           (meal, meal_time) ∈ meals
           /\ strptime_HM meal_time = Ok (h, m)
           /\ pre_meal_due zone user_now h m = true
           /\ t = String.append "pre_" meal.
Proof.
  induction meals as [|[meal meal_time] meals IH]; intros acc res Hrun t.
  - simpl in Hrun. injection Hrun as <-. split; [by left|].
    intros [Ht | (meal & meal_time & h & m & Hin & _)]; [exact Ht|].
    by apply elem_of_nil in Hin.
  - cbn [rfold] in Hrun. apply rbind_Ok in Hrun as (acc' & Hstep & Hrest).
    apply rbind_Ok in Hstep as ([h m] & Hparse & Hdue).
    cbv zeta in Hdue. fold (pre_meal_due zone user_now h m) in Hdue.
    rewrite (IH _ _ Hrest t). clear IH Hrest.
    destruct (pre_meal_due zone user_now h m) eqn:Hfire;
      injection Hdue as <-.
    + rewrite elem_of_app, list_elem_of_singleton. split.
      * intros [[Ht | ->] | (meal' & mt' & h' & m' & Hin & Hrest)].
        -- by left.
        -- right. exists meal, meal_time, h, m.
           split; [by left | done].
        -- right. exists meal', mt', h', m'. split; [by right | done].
      * intros [Ht | (meal' & mt' & h' & m' & Hin & Hp & Hd & Ht)].
        -- left. by left.
        -- apply elem_of_cons in Hin as [[= -> ->] | Hin].
           ++ left. by right.
           ++ right. exists meal', mt', h', m'. done.
    + split.
      * intros [Ht | (meal' & mt' & h' & m' & Hin & Hrest)]; [by left|].
        right. exists meal', mt', h', m'. split; [by right | done].
      * intros [Ht | (meal' & mt' & h' & m' & Hin & Hp & Hd & Ht)];
          [by left|].
        apply elem_of_cons in Hin as [[= -> ->] | Hin].
        -- congruence.
        -- right. exists meal', mt', h', m'. done.
Qed.

(** The loop over the conditions completes only when there is no
    condition: its first turn asks the agent for
    [_should_remind_condition]. *)
Lemma condition_loop_returns (ag : Agent) (uid : string) (now : datetime)
    (conds : list string) (acc res : list string) :
  rfold
    (fun triggers condition =>
       rbind (send "_should_remind_condition"
                (_should_remind_condition ag uid condition now))
         (fun remind =>
            if remind
            then Ok (triggers ++ [condition_trigger condition])
            else Ok triggers))
    conds acc = Ok res ->
  conds = [] /\ res = acc.
Proof.
  destruct conds as [|c conds].
  - simpl. intros [= <-]. done.
  - cbn [rfold]. rewrite send_absent by reflexivity. discriminate.
Qed.

Lemma hour_not_quiet (h : Z) :
  (22 <=? h) || (h <=? 7) = false <-> 8 <= h <= 21.
Proof.
  rewrite orb_false_iff, !Z.leb_gt. lia.
Qed.

(** The members of the list that [resolve_triggers] returns. *)
Lemma resolve_triggers_members (tzdb : string -> option TzInfo) (ag : Agent)
    (user : User) (now : datetime) (rnd : Q) (triggers : list string) :
  fst (resolve_triggers tzdb ag user now rnd) = Ok triggers ->
  exists zone,
    tzdb (tz user) = Some zone
    /\ (8 <= hour (astimezone zone now) <= 21 -> conditions user = [])
    /\ forall t,
         t ∈ triggers <->
         8 <= hour (astimezone zone now) <= 21
         /\ ((exists meal meal_time h m,
                 (meal, meal_time) ∈ usual_meal_times user
                 /\ strptime_HM meal_time = Ok (h, m)
                 /\ pre_meal_due zone (astimezone zone now) h m = true
                 /\ t = String.append "pre_" meal)
             \/ (t = "post_activity"
                 /\ exists a ts,
                      a ∈ activity_logs ag
                      /\ act_user_id a = user_id user
                      /\ act_event a = "worked_out"
                      /\ act_ts a = Some ts
                      /\ instant now - 2 * usec_per_hour <= ts)
             \/ (t = "social_viral"
                 /\ 17 <= hour (astimezone zone now) <= 20
                 /\ (rnd < 1 # 10)%Q)).
Proof.
  unfold resolve_triggers.
  destruct (activity_ts_aware ag) eqn:Haware; [discriminate|].
  destruct (tzdb (tz user)) as [zone|]; [|discriminate].
  change (astimezone zone {| instant := instant now; utcoffset := 0 |})
    with (astimezone zone now).
  fold (to_utc now). fold (localize_log ag).
  remember (astimezone zone now) as user_now eqn:Huser_now.
  destruct ((22 <=? hour user_now) || (hour user_now <=? 7)) eqn:Hquiet.
  { cbn [fst]. intros [= <-]. exists zone. split; [reflexivity|].
    rewrite <- Huser_now. split.
    - intros Hhour. apply hour_not_quiet in Hhour. congruence.
    - intros t. split.
      + intros Ht. by apply elem_of_nil in Ht.
      + intros (Hhour & _). apply hour_not_quiet in Hhour. congruence. }
  apply hour_not_quiet in Hquiet.
  cbn [fst]. intros Hrun. exists zone. split; [reflexivity|].
  rewrite <- Huser_now.
  apply rbind_Ok in Hrun as (pre & Hpre & Hrun).
  apply rbind_Ok in Hrun as (recent & Hrecent & Hrun).
  cbv zeta in Hrun.
  apply rbind_Ok in Hrun as (with_cond & Hcond & Hviral).
  apply condition_loop_returns in Hcond as (Hnone & ->).
  split; [intros _; exact Hnone|]. intros t.
  pose proof (pre_meal_loop_elem zone user_now _ _ _ Hpre) as Hpre_elem.
  assert (Hrecent_elem :
    (0 <? Z.of_nat (length recent)) = true <->
    exists a ts,
      a ∈ activity_logs ag /\ act_user_id a = user_id user
      /\ act_event a = "worked_out" /\ act_ts a = Some ts
      /\ instant now - 2 * usec_per_hour <= ts).
  { unfold activity_since, check_ts_comparable in Hrecent.
    cbn [localize_log activity_ts_aware activity_logs rbind] in Hrecent.
    injection Hrecent as <-. rewrite Z.ltb_lt. split.
    - intros Hlen.
      destruct (List.filter _ (activity_logs ag)) as [|a l] eqn:Hfilter;
        [simpl in Hlen; lia|].
      assert (Hin : In a (a :: l)) by (by left).
      rewrite <- Hfilter in Hin. apply filter_In in Hin as (Hin & Htest).
      apply andb_true_iff in Htest as (Htest & Hts).
      apply andb_true_iff in Htest as (Huid & Hev).
      apply String.eqb_eq in Huid, Hev.
      unfold ts_geb in Hts. destruct (act_ts a) as [ts|] eqn:Hat; [|discriminate].
      apply Z.leb_le in Hts. cbn [to_utc minus_delta instant] in Hts.
      exists a, ts. split; [by apply list_elem_of_In | done].
    - intros (a & ts & Hin & Huid & Hev & Hat & Hts).
      assert (Hf : In a (List.filter
                (fun a0 => String.eqb (act_user_id a0) (user_id user)
                           && String.eqb (act_event a0) "worked_out"
                           && ts_geb (act_ts a0)
                                (minus_delta (to_utc now) (2 * usec_per_hour)))
                (activity_logs ag))).
      { apply filter_In. split; [by apply list_elem_of_In|].
        rewrite Huid, Hev, !String.eqb_refl. unfold ts_geb. rewrite Hat.
        apply Z.leb_le. cbn [to_utc minus_delta instant]. exact Hts. }
      destruct (List.filter _ (activity_logs ag)); [destruct Hf|].
      simpl. lia. }
  assert (Hviral_test :
    (17 <=? hour user_now) && (hour user_now <=? 20) && Qltb rnd (1 # 10)%Q
    = true <-> 17 <= hour user_now <= 20 /\ (rnd < 1 # 10)%Q).
  { rewrite !andb_true_iff, !Z.leb_le. unfold Qltb.
    rewrite negb_true_iff. split.
    - intros ((H1 & H2) & Hlt). split; [lia|].
      apply Qnot_le_lt. intros Hle. apply Qle_bool_iff in Hle. congruence.
    - intros ((H1 & H2) & Hlt). split; [done|].
      destruct (Qle_bool (1 # 10) rnd) eqn:Hle; [|reflexivity].
      apply Qle_bool_iff in Hle. exfalso. by apply (Qlt_not_le _ _ Hlt). }
  assert (Hwith :
    t ∈ (if 0 <? Z.of_nat (length recent)
         then pre ++ ["post_activity"] else pre) <->
    (exists meal meal_time h m,
        (meal, meal_time) ∈ usual_meal_times user
        /\ strptime_HM meal_time = Ok (h, m)
        /\ pre_meal_due zone user_now h m = true
        /\ t = String.append "pre_" meal)
    \/ (t = "post_activity" /\ (0 <? Z.of_nat (length recent)) = true)).
  { destruct (0 <? Z.of_nat (length recent)).
    - rewrite elem_of_app, list_elem_of_singleton, Hpre_elem.
      split.
      + intros [[Hnil | Hmeal] | ->].
        * by apply elem_of_nil in Hnil.
        * by left.
        * by right.
      + intros [Hmeal | (-> & _)].
        * left. by right.
        * by right.
    - rewrite Hpre_elem. split.
      + intros [Hnil | Hmeal].
        * by apply elem_of_nil in Hnil.
        * by left.
      + intros [Hmeal | (_ & Hfalse)].
        * by right.
        * discriminate. }
  rewrite Hrecent_elem in Hwith.
  destruct ((17 <=? hour user_now) && (hour user_now <=? 20)
            && Qltb rnd (1 # 10)%Q) eqn:Hv; injection Hviral as <-.
  - assert (Hvir : 17 <= hour user_now <= 20 /\ (rnd < 1 # 10)%Q)
      by (by apply Hviral_test).
    rewrite elem_of_app, list_elem_of_singleton, Hwith. split.
    + intros [[Hm | Hp] | ->]; (split; [exact Hquiet|]).
      * by left.
      * right. by left.
      * right. right. split; [reflexivity | exact Hvir].
    + intros (_ & [Hm | [Hp | (-> & _)]]).
      * left. by left.
      * left. by right.
      * by right.
  - rewrite Hwith. split.
    + intros [Hm | Hp]; (split; [exact Hquiet|]).
      * by left.
      * right. by left.
    + intros (_ & [Hm | [Hp | (_ & Hvir)]]).
      * by left.
      * by right.
      * exfalso. apply Hviral_test in Hvir. discriminate.
Qed.

(** X3 — A call of [resolve_triggers] that returns outside the quiet hours
    (local hour 8 to 21) is a call for a user without conditions: with a
    condition the loop over them raises [AttributeError].  The triggers of
    a call that returns are exactly these, and all of them outside the
    quiet hours: [pre_<meal>] for a meal whose time is half an hour away,
    give or take 300 seconds; [post_activity] when the log has a workout of
    this user dated two hours before [now] or later; [social_viral] when
    the local hour is 17 to 20 and the draw is below 0.1.  No
    [condition_<slug>] is ever among them. *)
Theorem resolve_triggers_classified (tzdb : string -> option TzInfo)
    (ag : Agent) (user : User) (now : datetime) (rnd : Q)
    (triggers : list string) :
  fst (resolve_triggers tzdb ag user now rnd) = Ok triggers ->
  exists zone,
    tzdb (tz user) = Some zone
    /\ (8 <= hour (astimezone zone now) <= 21 -> conditions user = [])
    /\ forall t,
         t ∈ triggers <->
         8 <= hour (astimezone zone now) <= 21
         /\ ((exists meal meal_time h m,
                 (meal, meal_time) ∈ usual_meal_times user
                 /\ strptime_HM meal_time = Ok (h, m)
                 /\ pre_meal_due zone (astimezone zone now) h m = true
                 /\ t = String.append "pre_" meal)
             \/ (t = "post_activity"
                 /\ exists a ts,
                      a ∈ activity_logs ag
                      /\ act_user_id a = user_id user
                      /\ act_event a = "worked_out"
                      /\ act_ts a = Some ts
                      /\ instant now - 2 * usec_per_hour <= ts)
             \/ (t = "social_viral"
                 /\ 17 <= hour (astimezone zone now) <= 20
                 /\ (rnd < 1 # 10)%Q)).
Proof. apply resolve_triggers_members. Qed.

(** A user without conditions at 12:30 in Kolkata, half an hour before
    lunch. *)
Lemma resolve_triggers_classified_witness :
  exists zone,
    Sample.tzdb (tz Sample.carefree_user) = Some zone
    /\ (8 <= hour (astimezone zone Sample.noon) <= 21 ->
        conditions Sample.carefree_user = [])
    /\ forall t,
         t ∈ ["pre_lunch"] <->
         8 <= hour (astimezone zone Sample.noon) <= 21
         /\ ((exists meal meal_time h m,
                 (meal, meal_time) ∈ usual_meal_times Sample.carefree_user
                 /\ strptime_HM meal_time = Ok (h, m)
                 /\ pre_meal_due zone (astimezone zone Sample.noon) h m = true
                 /\ t = String.append "pre_" meal)
             \/ (t = "post_activity"
                 /\ exists a ts,
                      a ∈ activity_logs Sample.carefree_agent
                      /\ act_user_id a = user_id Sample.carefree_user
                      /\ act_event a = "worked_out"
                      /\ act_ts a = Some ts
                      /\ instant Sample.noon - 2 * usec_per_hour <= ts)
             \/ (t = "social_viral"
                 /\ 17 <= hour (astimezone zone Sample.noon) <= 20
                 /\ (Sample.draw < 1 # 10)%Q)).
Proof.
  apply (resolve_triggers_classified Sample.tzdb Sample.carefree_agent
           Sample.carefree_user Sample.noon Sample.draw).
  vm_compute. reflexivity.
Defined.




(** ** The pre-meal window *)



(** ** Condition reminders *)

Lemma activity_since_aware (ag : Agent) (uid event : string) (bound : datetime) :
  activity_ts_aware ag = true ->
  exists rows, activity_since ag uid event bound = Ok rows.
Proof.
  intros Haware. unfold activity_since, check_ts_comparable.
  rewrite Haware. simpl. eauto.
Qed.

Lemma activity_since_elem (ag : Agent) (uid event : string) (bound : datetime)
    (rows : list ActivityRow) (a : ActivityRow) :
  activity_since ag uid event bound = Ok rows ->
  a ∈ rows <->
  a ∈ activity_logs ag /\ act_user_id a = uid /\ act_event a = event
  /\ exists ts, act_ts a = Some ts /\ instant bound <= ts.
Proof.
  unfold activity_since, check_ts_comparable.
  destruct (activity_ts_aware ag); [|discriminate].
  cbn [rbind]. intros [= <-].
  rewrite list_elem_of_In, filter_In, <- list_elem_of_In.
  rewrite !andb_true_iff, !String.eqb_eq. unfold ts_geb.
  split.
  - intros (Hin & (Hu & He) & Hts).
    destruct (act_ts a) as [ts|]; [|discriminate].
    apply Z.leb_le in Hts. eauto 10.
  - intros (Hin & Hu & He & ts & Hat & Hts). rewrite Hat.
    apply Z.leb_le in Hts. done.
Qed.

Lemma logged_foods_elem (ag : Agent) (rows : list ActivityRow) (food : Food) :
  food ∈ logged_foods ag rows <->
  exists a fid,
    a ∈ rows /\ act_food_id a = Some fid /\ dict_get (foods ag) fid = Some food.
Proof.
  unfold logged_foods. rewrite list_elem_of_omap. split.
  - intros (a & Hin & Hf). destruct (act_food_id a) as [fid|] eqn:Hfid;
      [|discriminate]. eauto.
  - intros (a & fid & Hin & Hfid & Hf). exists a. by rewrite Hfid.
Qed.

(** X6 — On a localized log the reminder test of a condition returns, and it
    answers no exactly when the log has a row of this user, of kind
    [consumed], dated seven days before [now] or later, whose food is in
    the catalog and lists a nutrient linked to the condition.  The amount
    of the nutrient is not looked at. *)
Theorem reminder_withheld_iff (ag : Agent) (uid condition : string)
    (now : datetime) :
  activity_ts_aware ag = true ->
  exists remind,
    _should_remind_condition ag uid condition now = Ok remind
    /\ (remind = false <->
        exists a ts fid food row,
          a ∈ activity_logs ag
          /\ act_user_id a = uid
          /\ act_event a = "consumed"
          /\ act_ts a = Some ts
          /\ instant now - 7 * usec_per_day <= ts
          /\ act_food_id a = Some fid
          /\ dict_get (foods ag) fid = Some food
          /\ row ∈ condition_nutrients ag
          /\ lr_condition row = condition
          /\ lr_nutrient row ∈ dict_keys (nutrients food)).
Proof.
  intros Haware. unfold _should_remind_condition.
  destruct (activity_since_aware ag uid "consumed"
              (minus_delta now (7 * usec_per_day)) Haware) as (rows & Hrows).
  rewrite Hrows. cbn [rbind]. eexists. split; [reflexivity|].
  rewrite bool_decide_eq_false.
  set (relevant := list_to_set _ : gset string).
  set (consumed := list_to_set _ : gset string).
  assert (Hrel : forall n, n ∈ relevant <->
            exists row, row ∈ condition_nutrients ag
                        /\ lr_condition row = condition /\ lr_nutrient row = n).
  { intros n. unfold relevant, rows_of_condition.
    rewrite elem_of_list_to_set, list_elem_of_In, in_map_iff. split.
    - intros (row & Hn & Hin).
      apply list_elem_of_In, list_elem_of_filter in Hin as (Hc & Hin). eauto.
    - intros (row & Hin & Hc & Hn). exists row. split; [exact Hn|].
      apply list_elem_of_In, list_elem_of_filter. done. }
  assert (Hcons : forall n, n ∈ consumed <->
            exists a ts fid food,
              a ∈ activity_logs ag /\ act_user_id a = uid
              /\ act_event a = "consumed" /\ act_ts a = Some ts
              /\ instant now - 7 * usec_per_day <= ts
              /\ act_food_id a = Some fid
              /\ dict_get (foods ag) fid = Some food
              /\ n ∈ dict_keys (nutrients food)).
  { intros n. unfold consumed.
    rewrite elem_of_list_to_set, list_elem_of_In, in_concat. split.
    - intros (keys & Hkeys & Hn).
      apply in_map_iff in Hkeys as (food & <- & Hfood).
      apply list_elem_of_In, logged_foods_elem in Hfood
        as (a & fid & Ha & Hfid & Hget).
      apply (activity_since_elem _ _ _ _ _ _ Hrows) in Ha
        as (Hin & Hu & He & ts & Hat & Hts).
      cbn [minus_delta instant] in Hts.
      apply list_elem_of_In in Hn.
      exists a, ts, fid, food. repeat (split; [assumption|]). exact Hn.
    - intros (a & ts & fid & food & Hin & Hu & He & Hat & Hts & Hfid & Hget & Hn).
      exists (dict_keys (nutrients food)). split; [|by apply list_elem_of_In].
      apply in_map_iff. exists food. split; [reflexivity|].
      apply list_elem_of_In, logged_foods_elem. exists a, fid.
      split; [|done].
      apply (activity_since_elem _ _ _ _ _ _ Hrows).
      cbn [minus_delta instant]. eauto 10. }
  split.
  - intros Hsize.
    assert (Hne : relevant ∩ consumed ≢ ∅).
    { intros Hempty. apply Hsize. by apply size_empty_iff. }
    apply set_choose in Hne as (n & Hn).
    apply elem_of_intersection in Hn as (Hr & Hc).
    apply Hrel in Hr as (row & Hrow & Hcond & Hnut).
    apply Hcons in Hc as (a & ts & fid & food & Hrest).
    exists a, ts, fid, food, row. rewrite Hnut. tauto.
  - intros (a & ts & fid & food & row & Hin & Hu & He & Hat & Hts & Hfid
            & Hget & Hrow & Hcond & Hn) Hsize.
    apply size_empty_iff in Hsize.
    assert (Hmem : lr_nutrient row ∈ relevant ∩ consumed).
    { apply elem_of_intersection. split.
      - apply Hrel. eauto.
      - apply Hcons. exists a, ts, fid, food. done. }
    apply Hsize in Hmem. by apply not_elem_of_empty in Hmem.
Qed.

Lemma reminder_withheld_iff_witness :
  exists remind,
    _should_remind_condition Sample.agent_localized "u002" "Hair fall"
                             Sample.noon = Ok remind
    /\ (remind = false <->
        exists a ts fid food row,
          a ∈ activity_logs Sample.agent_localized
          /\ act_user_id a = "u002"
          /\ act_event a = "consumed"
          /\ act_ts a = Some ts
          /\ instant Sample.noon - 7 * usec_per_day <= ts
          /\ act_food_id a = Some fid
          /\ dict_get (foods Sample.agent_localized) fid = Some food
          /\ row ∈ condition_nutrients Sample.agent_localized
          /\ lr_condition row = "Hair fall"
          /\ lr_nutrient row ∈ dict_keys (nutrients food)).
Proof.
  apply (reminder_withheld_iff Sample.agent_localized "u002" "Hair fall"
           Sample.noon).
  reflexivity.
Defined.


(** ** Relevance and the scores *)

Lemma all_nutrients_elem (ag : Agent) (user : User) (n : string) :
  n ∈ all_nutrients ag user <->
  exists row,
    row ∈ condition_nutrients ag
    /\ lr_condition row ∈ conditions user
    /\ lr_nutrient row = n.
Proof.
  unfold all_nutrients, rows_of_user.
  rewrite elem_of_elements, elem_of_list_to_set, list_elem_of_In, in_map_iff.
  split.
  - intros (row & Hn & Hin).
    apply list_elem_of_In, list_elem_of_filter in Hin as (Hc & Hin). eauto.
  - intros (row & Hin & Hc & Hn). exists row. split; [exact Hn|].
    apply list_elem_of_In, list_elem_of_filter. done.
Qed.

Lemma is_relevant_iff (ag : Agent) (user : User) (food : Food) :
  _is_relevant_to_conditions ag user food = true <->
  exists n, n ∈ dict_keys (nutrients food) /\ n ∈ all_nutrients ag user.
Proof.
  unfold _is_relevant_to_conditions. rewrite existsb_exists. split.
  - intros (c & Hc & Hsize). apply bool_decide_eq_true in Hsize.
    apply size_pos_elem_of in Hsize as (n & Hn).
    apply elem_of_intersection in Hn as (Hkey & Hreq).
    apply elem_of_list_to_set in Hkey, Hreq.
    apply list_elem_of_In, in_map_iff in Hreq as (row & Hrow & Hin).
    apply list_elem_of_In, list_elem_of_filter in Hin as (Hcond & Hin).
    exists n. split; [exact Hkey|]. apply all_nutrients_elem.
    exists row. split; [exact Hin|]. split; [|exact Hrow].
    rewrite Hcond. by apply list_elem_of_In.
  - intros (n & Hkey & Hall).
    apply all_nutrients_elem in Hall as (row & Hin & Hcond & Hrow).
    exists (lr_condition row). split; [by apply list_elem_of_In|].
    apply bool_decide_eq_true.
    assert (Hmem : n ∈ (list_to_set (dict_keys (nutrients food)) : gset string)
                       ∩ list_to_set
                           (map lr_nutrient
                              (rows_of_condition ag (lr_condition row)))).
    { apply elem_of_intersection. split; apply elem_of_list_to_set;
        [exact Hkey|].
      apply list_elem_of_In, in_map_iff. exists row. split; [exact Hrow|].
      apply list_elem_of_In, list_elem_of_filter. done. }
    destruct (size _) eqn:Hsz; [|lia].
    apply size_empty_inv in Hsz. apply Hsz in Hmem.
    by apply not_elem_of_empty in Hmem.
Qed.



(** X7 — The filter and the ranker look at the same nutrients: a food is
    relevant exactly when one of its nutrient names is among those linked
    to the user's conditions.  The condition match is zero for a user none
    of whose conditions has a link row; for every other user it is not
    computed: [_calculate_condition_match] raises [AttributeError] when it
    asks the agent for [_cosine_similarity]. *)
Theorem condition_match_zero_cases (sqrtQ : Q -> Q) (ag : Agent)
    (user : User) (food : Food) :
  (_is_relevant_to_conditions ag user food = true <->
   exists n, n ∈ dict_keys (nutrients food) /\ n ∈ all_nutrients ag user)
  /\ (rows_of_user ag user = [] ->
      _calculate_condition_match sqrtQ ag food user = Ok (0 # 1)%Q)
  /\ (rows_of_user ag user <> [] ->
      _calculate_condition_match sqrtQ ag food user = Raise AttributeError).
Proof.
  split; [apply is_relevant_iff|]. split.
  - intros Hrows. unfold _calculate_condition_match. by rewrite Hrows.
  - intros Hrows. unfold _calculate_condition_match.
    destruct (rows_of_user ag user) as [|row rows]; [done|]. reflexivity.
Qed.

Lemma condition_match_zero_cases_witness :
  (_is_relevant_to_conditions Sample.agent Sample.nonveg_user Sample.avocado
   = true <->
   exists n, n ∈ dict_keys (nutrients Sample.avocado)
             /\ n ∈ all_nutrients Sample.agent Sample.nonveg_user)
  /\ _calculate_condition_match Sample.sqrtQ Sample.agent Sample.avocado
       Sample.carefree_user = Ok (0 # 1)%Q
  /\ _calculate_condition_match Sample.sqrtQ Sample.agent Sample.avocado
       Sample.nonveg_user = Raise AttributeError.
Proof.
  destruct (condition_match_zero_cases Sample.sqrtQ Sample.agent
              Sample.nonveg_user Sample.avocado) as (Hrel & _ & Hraise).
  split; [exact Hrel|]. split.
  - apply (proj1 (proj2 (condition_match_zero_cases Sample.sqrtQ Sample.agent
                            Sample.carefree_user Sample.avocado))).
    reflexivity.
  - apply Hraise. vm_compute. discriminate.
Defined.

Lemma last_last20_snoc {A} (l : list A) (x : A) :
  last (last20 (l ++ [x])) = Some x.
Proof.
  unfold last20. rewrite length_app. cbn [length].
  rewrite drop_app_le by lia. apply last_snoc.
Qed.

Lemma recent_entry_in_update (ag : Agent) (uid : string)
    (notif : NotificationCandidate) (t : datetime) :
  recent_entry notif t ∈ user_recent (_update_recent_notifications ag uid notif t) uid.
Proof.
  rewrite update_recent_same_user.
  apply last_Some_elem_of, last_last20_snoc.
Qed.

(** X9 — The novelty score has two values.  It is 0.1 exactly when the record of
    the user holds an entry for the food dated seven days before [now] or
    later, and 0.9 otherwise; so a food scores 0.1 as soon as a notification
    for it has been recorded for that user, for the seven days that
    follow. *)
Theorem recency_novelty_two_values (ag : Agent) (food : Food) (user : User)
    (now : datetime) :
  (_calculate_recency_novelty ag food user now = (1 # 10)%Q
   \/ _calculate_recency_novelty ag food user now = (9 # 10)%Q)
  /\ (_calculate_recency_novelty ag food user now = (1 # 10)%Q <->
      exists e,
        e ∈ user_recent ag (user_id user)
        /\ re_food_id e = food_id food
        /\ instant now - 7 * usec_per_day <= instant (re_timestamp e))
  /\ (forall notif t,
         food_id (nc_food notif) = food_id food ->
         instant now - 7 * usec_per_day <= instant t ->
         _calculate_recency_novelty
           (_update_recent_notifications ag (user_id user) notif t)
           food user now = (1 # 10)%Q).
Proof.
  assert (Hiff : forall ag',
    _calculate_recency_novelty ag' food user now = (1 # 10)%Q <->
    exists e,
      e ∈ user_recent ag' (user_id user)
      /\ re_food_id e = food_id food
      /\ instant now - 7 * usec_per_day <= instant (re_timestamp e)).
  { intros ag'. unfold _calculate_recency_novelty. fold (user_recent ag' (user_id user)).
    destruct (bool_decide _) eqn:Hmem.
    - split; [intros _|done]. apply bool_decide_eq_true in Hmem.
      apply list_elem_of_In, in_map_iff in Hmem as (e & Hid & Hin).
      apply filter_In in Hin as (Hin & Hts). apply Z.leb_le in Hts.
      cbn [minus_delta instant] in Hts.
      exists e. by rewrite list_elem_of_In.
    - split; [discriminate|]. intros (e & Hin & Hid & Hts). exfalso.
      apply bool_decide_eq_false in Hmem. apply Hmem.
      apply list_elem_of_In, in_map_iff. exists e. split; [exact Hid|].
      apply filter_In. split; [by apply list_elem_of_In|].
      apply Z.leb_le. exact Hts. }
  split; [|split; [apply Hiff|]].
  - unfold _calculate_recency_novelty. destruct (bool_decide _); [by left | by right].
  - intros notif t Hid Hts. apply Hiff.
    exists (recent_entry notif t).
    split; [apply recent_entry_in_update | done].
Qed.

(** ** The composer *)

Lemma Qltb_lt (a b : Q) : Qltb a b = true <-> (a < b)%Q.
Proof.
  unfold Qltb. rewrite negb_true_iff. split.
  - intros Hle. apply Qnot_le_lt. intros H. apply Qle_bool_iff in H. congruence.
  - intros Hlt. destruct (Qle_bool b a) eqn:Hle; [|reflexivity].
    apply Qle_bool_iff in Hle. exfalso. by apply (Qlt_not_le _ _ Hlt).
Qed.

Lemma Qltb_ge (a b : Q) : Qltb a b = false <-> (b <= a)%Q.
Proof.
  unfold Qltb. rewrite negb_false_iff. apply Qle_bool_iff.
Qed.

Lemma key_nutrient_loop (food : Food) (rows : list LinkRow) :
  forall score keys,
    let '(score', keys') :=
      fold_left
        (fun '(score, condition_key_nutrients) row =>
           match dict_get (nutrients food) (lr_nutrient row) with
           | Some amount =>
               if Qltb (0 # 1)%Q amount
               then ((score + lr_weight row * amount)%Q,
                     condition_key_nutrients ++ [lr_nutrient row])
               else (score, condition_key_nutrients)
           | None => (score, condition_key_nutrients)
           end)
        rows (score, keys) in
    (forall n, n ∈ keys' ->
       n ∈ keys
       \/ exists row amount,
            row ∈ rows /\ lr_nutrient row = n
            /\ dict_get (nutrients food) n = Some amount
            /\ (0 < amount)%Q)
    /\ ((forall row, row ∈ rows -> (0 <= lr_weight row)%Q) ->
        (score <= score')%Q
        /\ ((exists row amount,
                row ∈ rows
                /\ dict_get (nutrients food) (lr_nutrient row) = Some amount
                /\ (0 < amount)%Q /\ (0 < lr_weight row)%Q) ->
            (score < score')%Q)).
Proof.
  induction rows as [|row rows IH]; intros score keys.
  - cbn [fold_left]. split; [by left|]. intros _. split; [apply Qle_refl|].
    intros (row & amount & Hin & _). by apply elem_of_nil in Hin.
  - cbn [fold_left].
    destruct (dict_get (nutrients food) (lr_nutrient row)) as [amount|] eqn:Hget.
    + destruct (Qltb (0 # 1) amount) eqn:Hpos.
      * apply Qltb_lt in Hpos.
        specialize (IH (score + lr_weight row * amount)%Q
                       (keys ++ [lr_nutrient row])).
        destruct (fold_left _ rows _) as [score' keys'].
        destruct IH as (Hkeys & Hscore). split.
        -- intros n Hn. apply Hkeys in Hn as [Hn | (r & a & Hr & Hrest)].
           ++ apply elem_of_app in Hn as [Hn | Hn]; [by left|].
              apply list_elem_of_singleton in Hn. subst n.
              right. exists row, amount. split; [by left | done].
           ++ right. exists r, a. split; [by right | done].
        -- intros Hweights.
           destruct Hscore as (Hle & Hlt);
             [intros r Hr; apply Hweights; by right|].
           assert (Hterm : (0 <= lr_weight row * amount)%Q).
           { apply Qmult_le_0_compat; [apply Hweights; by left|].
             by apply Qlt_le_weak. }
           assert (Hstep : (score <= score + lr_weight row * amount)%Q).
           { rewrite <- (Qplus_0_r score) at 1.
             apply Qplus_le_compat; [apply Qle_refl | exact Hterm]. }
           split; [by eapply Qle_trans|].
           intros (r & a & Hr & Hga & Ha & Hw).
           apply elem_of_cons in Hr as [-> | Hr].
           ++ eapply Qlt_le_trans; [|exact Hle].
              rewrite <- (Qplus_0_r score) at 1.
              apply Qplus_lt_r.
              assert (a = amount) by congruence. subst a.
              rewrite <- (Qmult_0_l amount).
              by apply Qmult_lt_compat_r.
           ++ eapply Qle_lt_trans; [exact Hstep|]. apply Hlt. eauto 10.
      * apply Qltb_ge in Hpos.
        specialize (IH score keys).
        destruct (fold_left _ rows _) as [score' keys'].
        destruct IH as (Hkeys & Hscore). split.
        -- intros n Hn. apply Hkeys in Hn as [Hn | (r & a & Hr & Hrest)];
             [by left|].
           right. exists r, a. split; [by right | done].
        -- intros Hweights.
           destruct Hscore as (Hle & Hlt);
             [intros r Hr; apply Hweights; by right|].
           split; [exact Hle|].
           intros (r & a & Hr & Hga & Ha & Hw).
           apply elem_of_cons in Hr as [-> | Hr].
           ++ assert (a = amount) by congruence. subst a.
              exfalso. by apply (Qlt_not_le _ _ Ha).
           ++ apply Hlt. eauto 10.
    + specialize (IH score keys).
      destruct (fold_left _ rows _) as [score' keys'].
      destruct IH as (Hkeys & Hscore). split.
      * intros n Hn. apply Hkeys in Hn as [Hn | (r & a & Hr & Hrest)];
          [by left|].
        right. exists r, a. split; [by right | done].
      * intros Hweights.
        destruct Hscore as (Hle & Hlt);
          [intros r Hr; apply Hweights; by right|].
        split; [exact Hle|].
        intros (r & a & Hr & Hga & Ha & Hw).
        apply elem_of_cons in Hr as [-> | Hr]; [congruence|].
        apply Hlt. eauto 10.
Qed.

Lemma condition_relevance_keys (ag : Agent) (food : Food) (condition : string) :
  (forall n, n ∈ snd (condition_relevance ag food condition) ->
     key_nutrient_of ag food condition n)
  /\ (condition_relevance ag food condition = ((0 # 1)%Q, [])
      \/ snd (condition_relevance ag food condition) <> []).
Proof.
  unfold condition_relevance.
  pose proof (key_nutrient_loop food (rows_of_condition ag condition)
                (0 # 1)%Q []) as Hloop.
  assert (Hshape : forall rows score keys,
    let res := fold_left
        (fun '(score, condition_key_nutrients) row =>
           match dict_get (nutrients food) (lr_nutrient row) with
           | Some amount =>
               if Qltb (0 # 1)%Q amount
               then ((score + lr_weight row * amount)%Q,
                     condition_key_nutrients ++ [lr_nutrient row])
               else (score, condition_key_nutrients)
           | None => (score, condition_key_nutrients)
           end) rows (score, keys) in
    res = (score, keys) \/ snd res <> []).
  { induction rows as [|row rows IH]; intros score keys; [by left|].
    cbn [fold_left]. cbv zeta.
    destruct (dict_get (nutrients food) (lr_nutrient row)) as [amount|];
      [|apply IH].
    destruct (Qltb (0 # 1) amount); [|apply IH].
    right.
    destruct (IH (score + lr_weight row * amount)%Q (keys ++ [lr_nutrient row]))
      as [-> | Hne]; [|exact Hne].
    cbn [snd]. intros Hnil. by apply app_eq_nil in Hnil as (_ & ?). }
  split.
  - destruct (fold_left _ (rows_of_condition ag condition) _) as [score keys].
    destruct Hloop as (Hkeys & _). cbn [snd]. intros n Hn.
    apply Hkeys in Hn as [Hn | (row & amount & Hrow & Hn & Hget & Hpos)];
      [by apply elem_of_nil in Hn|].
    apply list_elem_of_filter in Hrow as (Hcond & Hrow).
    exists row, amount. done.
  - apply Hshape.
Qed.

Lemma primary_condition_loop (ag : Agent) (food : Food) (conds : list string)
    (visited : list string) :
  (forall c, c ∈ visited -> c ∈ conds) ->
  forall best best_score keys,
    (best = "" /\ best_score = (0 # 1)%Q /\ keys = []
     \/ best ∈ conds /\ (0 < best_score)%Q /\ keys <> []
        /\ forall n, n ∈ keys -> key_nutrient_of ag food best n) ->
    let '(best', best_score', keys') :=
      fold_left
        (fun '(best_condition, best_score, key_nutrients) condition =>
           let '(score, condition_key_nutrients) :=
             condition_relevance ag food condition in
           if Qltb best_score score
           then (condition, score, condition_key_nutrients)
           else (best_condition, best_score, key_nutrients))
        visited (best, best_score, keys) in
    (best' = "" /\ best_score' = (0 # 1)%Q /\ keys' = []
     \/ best' ∈ conds /\ (0 < best_score')%Q /\ keys' <> []
        /\ forall n, n ∈ keys' -> key_nutrient_of ag food best' n)
    /\ (best_score <= best_score')%Q
    /\ (forall c, c ∈ visited ->
          (fst (condition_relevance ag food c) <= best_score')%Q).
Proof.
  induction visited as [|c visited IH]; intros Hsub best best_score keys Hinv.
  - cbn [fold_left]. split; [exact Hinv|].
    split; [apply Qle_refl|]. intros c Hc. by apply elem_of_nil in Hc.
  - cbn [fold_left].
    assert (Hsub' : forall c', c' ∈ visited -> c' ∈ conds)
      by (intros c' Hc'; apply Hsub; by right).
    destruct (condition_relevance_keys ag food c) as (Hkeys & Hshape).
    destruct (condition_relevance ag food c) as [score ckeys] eqn:Hrel.
    cbn [fst snd] in *.
    destruct (Qltb best_score score) eqn:Hlt.
    + apply Qltb_lt in Hlt.
      assert (Hpos : (0 < score)%Q).
      { destruct Hinv as [(_ & -> & _) | (_ & Hp & _)]; [exact Hlt|].
        by eapply Qlt_trans. }
      specialize (IH Hsub' c score ckeys).
      destruct (fold_left _ visited _) as [[best' best_score'] keys'].
      destruct IH as (Hinv' & Hmono & Hall).
      { right. split; [apply Hsub; by left|].
        split; [exact Hpos|]. split; [|exact Hkeys].
        destruct Hshape as [[= -> ->] | Hne]; [|exact Hne].
        exfalso. by apply (Qlt_irrefl 0). }
      split; [exact Hinv'|]. split.
      * eapply Qle_trans; [apply Qlt_le_weak; exact Hlt | exact Hmono].
      * intros c' Hc'. apply elem_of_cons in Hc' as [-> | Hc'];
          [|by apply Hall].
        rewrite Hrel. exact Hmono.
    + apply Qltb_ge in Hlt.
      specialize (IH Hsub' best best_score keys Hinv).
      destruct (fold_left _ visited _) as [[best' best_score'] keys'].
      destruct IH as (Hinv' & Hmono & Hall).
      split; [exact Hinv'|]. split; [exact Hmono|].
      intros c' Hc'. apply elem_of_cons in Hc' as [-> | Hc'];
        [|by apply Hall].
      rewrite Hrel. cbn [fst]. by eapply Qle_trans.
Qed.

(** X10 — The primary condition is one of the user's conditions, with at least
    one key nutrient, or it is the empty string, with none, when no
    condition scores above zero; and every key nutrient is linked to the
    primary condition and present in the food with a positive amount. *)
Theorem primary_condition_sound (ag : Agent) (food : Food) (user : User) :
  let '(condition, key_nutrients) :=
    _get_primary_condition_and_nutrients ag food user in
  (condition ∈ conditions user /\ key_nutrients <> []
   \/ condition = "" /\ key_nutrients = [])
  /\ forall n, n ∈ key_nutrients -> key_nutrient_of ag food condition n.
Proof.
  unfold _get_primary_condition_and_nutrients.
  pose proof (primary_condition_loop ag food (conditions user)
                (conditions user) (fun c H => H) "" (0 # 1)%Q []) as Hloop.
  unfold condition_relevance in Hloop.
  destruct (fold_left _ (conditions user) _) as [[best best_score] keys].
  destruct Hloop as (Hinv & _); [by left|].
  destruct Hinv as [(-> & _ & ->) | (Hin & Hpos & Hne & Hkeys)].
  - split; [by right|]. intros n Hn. by apply elem_of_nil in Hn.
  - split; [by left | exact Hkeys].
Qed.



Lemma select_template_cases (trigger : string) :
  _select_template trigger
  ∈ ["pre_meal_basic"; "post_workout"; "science_fact"; "condition_reminder"].
Proof.
  unfold _select_template.
  destruct (startswith trigger "condition_"); [set_solver|].
  cbn [dict_get].
  repeat (match goal with
          | |- context [String.eqb ?a trigger] => destruct (String.eqb a trigger)
          end; [cbn [default from_option id]; set_solver|]).
  cbn [default from_option id]. set_solver.
Qed.

(** X12 — The template of a message is one of the four of the data.  For a
    ranked list of which at least one entry is to be composed,
    [compose_messages] raises [AttributeError] when it asks the agent for
    [_get_primary_condition_and_nutrients]; it returns, the empty list,
    only when there is nothing to compose. *)
Theorem compose_messages_outcome (str_lower : unicode -> unicode)
    (ag : Agent) (ranked_candidates : list (Food * Q * Scores)) (user : User)
    (trigger : string) (top_n : nat) :
  _select_template trigger
  ∈ ["pre_meal_basic"; "post_workout"; "science_fact"; "condition_reminder"]
  /\ (firstn top_n ranked_candidates = [] ->
      compose_messages str_lower ag ranked_candidates user trigger top_n
      = Ok [])
  /\ (firstn top_n ranked_candidates <> [] ->
      compose_messages str_lower ag ranked_candidates user trigger top_n
      = Raise AttributeError).
Proof.
  split; [apply select_template_cases|].
  unfold compose_messages. split.
  - by intros ->.
  - destruct (firstn top_n ranked_candidates) as [|[[food score] scores] rest];
      [done|].
    reflexivity.
Qed.

Lemma compose_messages_outcome_witness :
  _select_template "pre_lunch"
  ∈ ["pre_meal_basic"; "post_workout"; "science_fact"; "condition_reminder"]
  /\ compose_messages Sample.str_lower Sample.agent [] Sample.u001
       "pre_lunch" 1 = Ok []
  /\ compose_messages Sample.str_lower Sample.agent
       [(Sample.spinach, (1 # 2)%Q, mkScores 0 0 1 (9 # 10) 0)]
       Sample.u001 "pre_lunch" 1 = Raise AttributeError.
Proof.
  destruct (compose_messages_outcome Sample.str_lower Sample.agent []
              Sample.u001 "pre_lunch" 1) as (Htemplate & Hnone & _).
  split; [exact Htemplate|]. split; [by apply Hnone|].
  apply (compose_messages_outcome Sample.str_lower Sample.agent
           [(Sample.spinach, (1 # 2)%Q, mkScores 0 0 1 (9 # 10) 0)]
           Sample.u001 "pre_lunch" 1).
  discriminate.
Defined.

(** ** What the orchestrator returns *)

(** X13 — How a call for notifications ends.  Asked of an agent, as every
    caller asks, [generate_notifications] is not found:
    [AttributeError].  Its body, run on an agent, returns the empty list
    for a user the agent does not know and raises [AttributeError], at the
    rate-limit check, for every user it knows; in no case is the agent
    changed. *)
Theorem generate_notifications_outcome (tzdb : string -> option TzInfo)
    (sqrtQ : Q -> Q) (str_lower : unicode -> unicode) (ag : Agent)
    (uid : string) (now : datetime) (rnd : Q) :
  call_generate_notifications tzdb sqrtQ str_lower ag uid now rnd
  = (Raise AttributeError, ag)
  /\ (users ag !! uid = None ->
      generate_notifications tzdb sqrtQ str_lower ag uid now rnd
      = (Ok [], ag))
  /\ (forall user,
        users ag !! uid = Some user ->
        generate_notifications tzdb sqrtQ str_lower ag uid now rnd
        = (Raise AttributeError, ag)).
Proof.
  split; [apply call_generate_notifications_raises|]. split.
  - apply generate_notifications_unknown.
  - intros user. apply generate_notifications_known.
Qed.

Lemma generate_notifications_outcome_witness :
  generate_notifications Sample.tzdb Sample.sqrtQ Sample.str_lower
    Sample.agent "u999" Sample.noon Sample.draw
  = (Ok [], Sample.agent)
  /\ generate_notifications Sample.tzdb Sample.sqrtQ Sample.str_lower
       Sample.agent "u002" Sample.noon Sample.draw
     = (Raise AttributeError, Sample.agent).
Proof.
  split.
  - apply (generate_notifications_outcome Sample.tzdb Sample.sqrtQ
             Sample.str_lower Sample.agent "u999" Sample.noon Sample.draw).
    reflexivity.
  - apply (proj2 (proj2 (generate_notifications_outcome Sample.tzdb
                           Sample.sqrtQ Sample.str_lower Sample.agent "u002"
                           Sample.noon Sample.draw)) Sample.egg_user).
    reflexivity.
Defined.

(** ** The safety check of the evaluator *)

(** X16 — The safety check of the evaluator never answers: for a user or a
    food that the agent does not hold the subscript raises [KeyError], and
    for a user and a food that it holds the check raises [AttributeError]
    when it asks the agent for [_check_diet_compatibility]. *)
Theorem safety_check_never_answers (ag : Agent) (uid fid : string) :
  (users ag !! uid = None ->
   _has_safety_violation ag uid fid = Raise (KeyError uid))
  /\ (forall user,
        users ag !! uid = Some user ->
        dict_get (foods ag) fid = None ->
        _has_safety_violation ag uid fid = Raise (KeyError fid))
  /\ (forall user food,
        users ag !! uid = Some user ->
        dict_get (foods ag) fid = Some food ->
        _has_safety_violation ag uid fid = Raise AttributeError).
Proof.
  unfold _has_safety_violation. split; [by intros ->|]. split.
  - intros user -> ->. reflexivity.
  - intros user food -> ->. reflexivity.
Qed.

Lemma safety_check_never_answers_witness :
  _has_safety_violation Sample.agent "u999" "f001" = Raise (KeyError "u999")
  /\ _has_safety_violation Sample.agent "u001" "f999"
     = Raise (KeyError "f999")
  /\ _has_safety_violation Sample.agent "u001" "f001" = Raise AttributeError.
Proof.
  split; [|split].
  - apply (safety_check_never_answers Sample.agent "u999" "f001").
    reflexivity.
  - apply (proj1 (proj2 (safety_check_never_answers Sample.agent "u001"
                           "f999")) Sample.u001); reflexivity.
  - apply (proj2 (proj2 (safety_check_never_answers Sample.agent "u001"
                           "f001")) Sample.u001 Sample.almonds); reflexivity.
Defined.

(** ** The offline evaluation *)

(** X17 — The offline evaluation never returns a report.  With no user to
    test, the loops count nothing and the eligibility rate divides by
    zero; with a user, the first call of the first hour of the first day
    asks the agent for [generate_notifications] and raises
    [AttributeError].  The agent is left as it was. *)
Theorem offline_evaluation_never_reports (tzdb : string -> option TzInfo)
    (sqrtQ : Q -> Q) (str_lower : unicode -> unicode) (ag : Agent)
    (user_keys : list string) (base_instant : Z)
    (draws : Z -> Z -> string -> Q) :
  (user_keys = [] ->
   run_offline_evaluation tzdb sqrtQ str_lower ag user_keys base_instant draws
   = (ZeroDivisionError, ag))
  /\ (user_keys <> [] ->
      run_offline_evaluation tzdb sqrtQ str_lower ag user_keys base_instant
                             draws
      = (Raised AttributeError, ag)).
Proof.
  split.
  - intros ->. reflexivity.
  - destruct user_keys as [|user_id user_keys]; [done|]. intros _.
    reflexivity.
Qed.

Lemma offline_evaluation_never_reports_witness :
  run_offline_evaluation Sample.tzdb Sample.sqrtQ Sample.str_lower
    Sample.agent ["u001"; "u002"; "u003"] (instant Sample.noon)
    (fun _ _ _ => Sample.draw)
  = (Raised AttributeError, Sample.agent).
Proof.
  apply (offline_evaluation_never_reports Sample.tzdb Sample.sqrtQ
           Sample.str_lower Sample.agent ["u001"; "u002"; "u003"]).
  discriminate.
Defined.

(** ** The deep link *)

Lemma has_space_append (s t : string) :
  has_space (String.append s t) = has_space s || has_space t.
Proof.
  induction s as [|c s IH]; [reflexivity|].
  change (has_space (String c (String.append s t))
          = has_space (String c s) || has_space t).
  cbn [has_space]. by rewrite IH, orb_assoc.
Qed.

Lemma replace_space_no_space (s : string) :
  has_space (str_replace s " " "%20") = false.
Proof.
  unfold str_replace. induction s as [|c s IH]; [reflexivity|].
  cbn [replace_from String.prefix].
  destruct (ascii_dec " " c) as [<-|Hne].
  - destruct s; cbn [String.prefix]; rewrite has_space_append;
      change (String.length " " - 1)%nat with 0%nat; by rewrite IH.
  - cbn [has_space]. rewrite IH, orb_false_r.
    apply Ascii.eqb_neq. congruence.
Qed.

(** X22 — The deep link of a call to action never carries a space of the
    condition's name: whatever the condition is, the link contains a space
    only if the food's identifier does. *)
Theorem deep_link_space_free (food : Food) (condition : string) :
  has_space (food_id food) = false ->
  has_space (deep_link (_generate_cta food condition)) = false.
Proof.
  intros Hid. unfold _generate_cta. cbn [deep_link].
  rewrite !has_space_append, Hid, replace_space_no_space. reflexivity.
Qed.

Lemma deep_link_space_free_witness :
  deep_link (_generate_cta Sample.spinach "Glowing skin")
  = "app://explore?food=f003&condition=Glowing%20skin"
  /\ has_space (deep_link (_generate_cta Sample.spinach "Glowing skin"))
     = false.
Proof.
  split; [vm_compute; reflexivity|].
  apply (deep_link_space_free Sample.spinach "Glowing skin"). reflexivity.
Defined.


(** ** The statistics endpoint *)

Lemma ratio_range (a b : nat) :
  (a <= b)%nat -> b <> 0%nat -> (0 <= ratio a b /\ ratio a b <= 1)%Q.
Proof.
  intros Hle Hb. unfold ratio.
  assert (Hpos : (0 < inject_Z (Z.of_nat b))%Q)
    by (unfold Qlt; simpl; lia).
  split.
  - apply Qle_shift_div_l; [exact Hpos|]. rewrite Qmult_0_l.
    unfold Qle. simpl. lia.
  - apply Qle_shift_div_r; [exact Hpos|]. rewrite Qmult_1_l.
    unfold Qle. simpl. lia.
Qed.

Lemma count_up_get (counts : list (string * nat)) (key k : string) :
  default 0%nat (dict_get (count_up counts key) k)
  = (default 0%nat (dict_get counts k) + (if decide (key = k) then 1 else 0))%nat.
Proof.
  unfold count_up. destruct (decide (key = k)) as [->|Hne].
  - rewrite dict_get_set_eq. simpl. lia.
  - rewrite dict_get_set_ne by exact Hne. lia.
Qed.

Lemma count_up_sum (counts : list (string * nat)) (key : string) :
  sum_list (dict_values (count_up counts key))
  = S (sum_list (dict_values counts)).
Proof.
  unfold count_up, dict_values.
  induction counts as [|[k v] counts IH]; [reflexivity|].
  cbn [dict_set dict_get]. destruct (String.eqb k key).
  - simpl. lia.
  - cbn [map snd sum_list]. rewrite IH. lia.
Qed.

Lemma count_up_keys (counts : list (string * nat)) (key : string) :
  key ∈ dict_keys counts -> dict_keys (count_up counts key) = dict_keys counts.
Proof.
  unfold count_up, dict_keys.
  generalize (S (default 0%nat (dict_get counts key))). intros v.
  induction counts as [|[k w] counts IH]; intros Hin.
  - by apply elem_of_nil in Hin.
  - cbn [dict_set]. destruct (String.eqb k key) eqn:Hk; [reflexivity|].
    cbn [map fst]. f_equal. apply IH.
    apply elem_of_cons in Hin as [Heq|Hin]; [|exact Hin].
    apply String.eqb_neq in Hk. cbn [fst] in Heq. congruence.
Qed.

(** Counting the keys of a list one by one. *)
Lemma count_loop {A} (key_of : A -> string) (xs : list A) :
  forall counts,
    (forall k,
        default 0%nat
          (dict_get
             (fold_left (fun counts x => count_up counts (key_of x)) xs counts)
             k)
        = (default 0%nat (dict_get counts k)
           + length (filter (fun x => key_of x = k) xs))%nat)
    /\ sum_list
         (dict_values
            (fold_left (fun counts x => count_up counts (key_of x)) xs counts))
       = (sum_list (dict_values counts) + length xs)%nat.
Proof.
  induction xs as [|x xs IH]; intros counts.
  - cbn [fold_left length]. split; [intros k; rewrite filter_nil|];
      cbn [length]; lia.
  - cbn [fold_left]. destruct (IH (count_up counts (key_of x))) as (Hget & Hsum).
    split.
    + intros k. rewrite Hget, count_up_get.
      destruct (decide (key_of x = k)) as [Hk|Hk].
      * rewrite filter_cons_True by exact Hk. cbn [length]. lia.
      * rewrite filter_cons_False by exact Hk. lia.
    + rewrite Hsum, count_up_sum. cbn [length]. lia.
Qed.

Lemma age_group_cases (a : Z) :
  age_group a ∈ ["18-25"; "26-35"; "36-45"; "46+"].
Proof.
  unfold age_group.
  destruct (a <=? 25); [by left|].
  destruct (a <=? 35); [by right; left|].
  destruct (a <=? 45); [by do 2 right; left | by do 3 right; left].
Qed.

(** X23 — The statistics add up.  In the answer of
    [/analytics/system-stats] the four age groups are always listed, each
    with the number of users whose age falls in it — a user of 25 or less,
    a minor included, counting as ["18-25"] — and every diet preference
    with the number of users who have it; the counts of either table add up
    to [total_users]; the vegetarian ratio lies between zero and one; and
    at most five conditions are listed as popular. *)
Theorem system_statistics_add_up (ag : Agent) :
  let stats := get_system_statistics ag in
  dict_keys (age_distribution stats) = ["18-25"; "26-35"; "36-45"; "46+"]
  /\ (forall group,
         default 0%nat (dict_get (age_distribution stats) group)
         = length (filter (fun user => age_group (age user) = group)
                          (user_values ag)))
  /\ (forall diet,
         default 0%nat (dict_get (diet_preferences stats) diet)
         = length (filter (fun user => diet_pref user = diet)
                          (user_values ag)))
  /\ sum_list (dict_values (age_distribution stats)) = total_users stats
  /\ sum_list (dict_values (diet_preferences stats)) = total_users stats
  /\ total_users stats = size (users ag)
  /\ (0 <= vegetarian_foods_ratio stats /\ vegetarian_foods_ratio stats <= 1)%Q
  /\ (length (popular_conditions stats) <= 5)%nat.
Proof.
  cbv zeta. unfold get_system_statistics.
  cbn [age_distribution diet_preferences total_users vegetarian_foods_ratio
         popular_conditions].
  pose (groups := [("18-25", 0%nat); ("26-35", 0%nat); ("36-45", 0%nat);
                   ("46+", 0%nat)]).
  destruct (count_loop (fun user => age_group (age user)) (user_values ag)
              groups) as (Hage & Hage_sum).
  destruct (count_loop diet_pref (user_values ag) []) as (Hdiet & Hdiet_sum).
  split; [|split; [|split; [|split; [|split; [|split; [|split]]]]]].
  - fold groups. generalize (user_values ag). intros us.
    assert (Hkeys : dict_keys groups = ["18-25"; "26-35"; "36-45"; "46+"])
      by reflexivity.
    revert Hkeys. generalize groups. clear.
    induction us as [|u us IH]; intros counts Hkeys; [exact Hkeys|].
    cbn [fold_left]. apply IH. rewrite count_up_keys; [exact Hkeys|].
    rewrite Hkeys. apply age_group_cases.
  - intros group. fold groups. rewrite Hage.
    assert (Hzero : default 0%nat (dict_get groups group) = 0%nat).
    { unfold groups. cbn [dict_get].
      repeat (destruct (String.eqb _ group); [reflexivity|]). reflexivity. }
    rewrite Hzero. reflexivity.
  - intros diet. rewrite Hdiet. reflexivity.
  - fold groups. rewrite Hage_sum. reflexivity.
  - rewrite Hdiet_sum. reflexivity.
  - unfold user_values. rewrite length_fmap. apply length_map_to_list.
  - destruct (dict_values (foods ag)) as [|food foods] eqn:Hfoods.
    + split; apply Qle_refl || (unfold Qle; simpl; lia).
    + apply ratio_range; [|discriminate].
      clear. generalize (food :: foods). intros l.
      induction l as [|x l IH]; [reflexivity|].
      cbn [List.filter length]. destruct (is_veg x); cbn [length]; lia.
  - rewrite length_take. lia.
Qed.

(** ** The sort of the ranker *)

(** X24 — The sort that ends [rank_candidates],
    [sort(key=..., reverse=True)], rearranges the list it is given in
    descending order of the key and keeps the elements of equal key in the
    order in which they came. *)
Theorem ranking_sort_descending_stable {A : Type} (key : A -> Q)
    (l : list A) :
  Permutation (sort_desc key l) l
  /\ StronglySorted (fun x y => (key y <= key x)%Q) (sort_desc key l)
  /\ forall v,
       List.filter (fun a => Qeq_bool (key a) v) (sort_desc key l)
       = List.filter (fun a => Qeq_bool (key a) v) l.
Proof.
  split; [apply sort_desc_perm|].
  split; [apply (sort_desc_sorted key)|].
  intros v. apply sort_desc_stable.
Qed.

(** ** When the rate limits refuse *)

(** X25 — [_check_rate_limits] answers [False] in two cases and no other:
    the record of the user holds two or more entries dated at or after the
    midnight that opens [now]'s date, or its last entry is dated less than
    three hours before [now]. *)
Theorem rate_limits_refuse_iff (ag : Agent) (uid : string) (now : datetime) :
  _check_rate_limits ag uid now = false <->
  (2 <= length (today_notifications ag uid now))%nat
  \/ exists last_notification,
       last (user_recent ag uid) = Some last_notification
       /\ instant now - instant (re_timestamp last_notification)
          < 3 * usec_per_hour.
Proof.
  split.
  - intros Hrefused.
    destruct (le_lt_dec 2 (length (today_notifications ag uid now)))
      as [Hcap|Hfew]; [by left|].
    right. destruct (last (user_recent ag uid)) as [e|] eqn:Hlast.
    + exists e. split; [reflexivity|].
      destruct (Z_lt_le_dec (instant now - instant (re_timestamp e))
                            (3 * usec_per_hour)) as [Hshort|Hlong];
        [exact Hshort|].
      rewrite (proj2 (check_rate_limits_gap ag uid now e Hlast) Hlong)
        in Hrefused.
      apply negb_false_iff, Nat.leb_le in Hrefused. lia.
    + unfold _check_rate_limits in Hrefused. rewrite Hlast in Hrefused.
      destruct (2 <=? _)%nat eqn:Hcap; [|discriminate].
      apply Nat.leb_le in Hcap. lia.
  - intros [Hcap | (e & Hlast & Hshort)].
    + by apply check_rate_limits_cap.
    + by apply (check_rate_limits_gap ag uid now e Hlast).
Qed.

(** ** The update of the record *)

(** X26 — [_update_recent_notifications] puts one entry, with the food of
    the notification, [now] and the trigger ['recent'], at the end of the
    user's record and keeps the twenty newest entries: what is dropped is
    dropped from the front, and the new entry is the last.  The records of
    other users and the tables of the agent are left as they are. *)
Theorem recent_update_keeps_newest_twenty (ag : Agent) (uid : string)
    (notification : NotificationCandidate) (now : datetime) :
  let updated := _update_recent_notifications ag uid notification now in
  let entry := {| re_food_id := food_id (nc_food notification);
                  re_timestamp := now;
                  re_trigger := "recent" |} in
  (exists dropped,
      user_recent ag uid ++ [entry] = dropped ++ user_recent updated uid
      /\ length (user_recent updated uid)
         = Nat.min 20 (S (length (user_recent ag uid))))
  /\ last (user_recent updated uid) = Some entry
  /\ (forall other, uid <> other ->
        user_recent updated other = user_recent ag other)
  /\ users updated = users ag
  /\ foods updated = foods ag
  /\ activity_logs updated = activity_logs ag
  /\ activity_ts_aware updated = activity_ts_aware ag.
Proof.
  cbv zeta. split; [|split; [|split]].
  - rewrite update_recent_same_user.
    destruct (last20_suffix
                (user_recent ag uid ++ [recent_entry notification now]))
      as (Hcut & Hlen).
    eexists. split; [exact Hcut|].
    rewrite Hlen, length_app. cbn [length]. f_equal. lia.
  - rewrite update_recent_same_user. apply last_last20_snoc.
  - intros other Hne. by apply update_recent_other_user.
  - done.
Qed.

(** ** The two checks of the filter *)

(** X27 — [_check_diet_compatibility] by preference: ["veg"] passes the
    vegetarian foods, ["egg"] the vegetarian foods and those with ["eggs"]
    among their ingredients, ["nonveg"] and every other preference pass
    every food. *)
Theorem diet_check_by_preference (user : User) (food : Food) :
  (diet_pref user = "veg" ->
     (_check_diet_compatibility user food = true <-> is_veg food = true))
  /\ (diet_pref user = "egg" ->
        (_check_diet_compatibility user food = true
         <-> is_veg food = true \/ "eggs" ∈ ingredients food))
  /\ (diet_pref user <> "veg" -> diet_pref user <> "egg" ->
        _check_diet_compatibility user food = true).
Proof.
  unfold _check_diet_compatibility. split; [|split].
  - intros ->. done.
  - intros ->. simpl. rewrite orb_true_iff, bool_decide_eq_true. done.
  - intros Hveg Hegg.
    destruct (String.eqb (diet_pref user) "veg") eqn:E1;
      [apply String.eqb_eq in E1; done|].
    destruct (String.eqb (diet_pref user) "nonveg"); [done|].
    destruct (String.eqb (diet_pref user) "egg") eqn:E3;
      [apply String.eqb_eq in E3; done|].
    done.
Qed.

(** X28 — [_has_allergy_risk] answers [True] exactly when a tag or an
    ingredient of the food is one of the allergies of the user. *)
Theorem allergy_risk_iff_overlap (user : User) (food : Food) :
  _has_allergy_risk user food = true <->
  exists a, (a ∈ tags food \/ a ∈ ingredients food) /\ a ∈ allergies user.
Proof. apply has_allergy_risk_overlap. Qed.
